(** * agroRoute: verification of [otimizador.py]

    A shallow embedding of the route optimiser of the agroRoute application
    ([src/otimizador.py]) and the proofs of the properties its specification
    states about it.

    Modelling choices, once and for all:
    - a Python [float] is an IEEE 754 binary64 value, i.e. Rocq's primitive
      [float]; subtraction, multiplication and division are the primitive
      ones, [int(x)] is read off the exact decomposition [Prim2SF];
    - a Python [int] is a [Z];
    - a function that may raise returns a [resultado]: [Ok v] or [Raise e];
    - [math.hypot], the OR-Tools routing solver, the OpenRouteService client
      and the checks folium makes of the locations it is given are not code
      of this repository: they are interfaces (type classes), each with the
      part of its documented contract the proofs use stated as a separate
      class of laws. *)

From Stdlib Require Import ZArith QArith Qround Lia Floats.
From stdpp Require Import base option list gmap strings pretty.

Set Warnings "-register-all".
Local Open Scope Z_scope.

(** ** The Python runtime *)

Module Py.

(** The exceptions the module can meet.  [KeyboardInterrupt] stands for the
    exceptions that derive from [BaseException] only, which a clause
    [except Exception] lets through. *)
Inductive excecao : Type :=
  | ValueError (msg : string)
  | OverflowError (msg : string)
  | RuntimeError (msg : string)
  | IndexError (msg : string)
  | KeyError (msg : string)
  | TypeError (msg : string)
  | AttributeError (msg : string)
  | ApiError (msg : string)
  | ZeroDivisionError (msg : string)
  | OutraException (msg : string)
  | KeyboardInterrupt.

(** [str(e)] *)
Definition str (e : excecao) : string :=
  match e with
  | ValueError m | OverflowError m | RuntimeError m | IndexError m
  | KeyError m | TypeError m | AttributeError m | ApiError m
  | ZeroDivisionError m | OutraException m => m
  | KeyboardInterrupt => ""
  end.

(** [isinstance(e, Exception)] *)
Definition is_Exception (e : excecao) : bool :=
  match e with KeyboardInterrupt => false | _ => true end.

(** [isinstance(e, ors.exceptions.ApiError)] *)
Definition is_ApiError (e : excecao) : bool :=
  match e with ApiError _ => true | _ => false end.

Inductive resultado (A : Type) : Type :=
  | Ok (a : A)
  | Raise (e : excecao).
Global Arguments Ok {A} a.
Global Arguments Raise {A} e.

#[global] Instance resultado_ret : MRet resultado := fun A a => Ok a.
#[global] Instance resultado_bind : MBind resultado :=
  fun A B f r => match r with Ok a => f a | Raise e => Raise e end.

(** [l[i]] for a list [l] and an index [i >= 0]. *)
Definition getitem {A} (l : list A) (i : nat) : resultado A :=
  match l !! i with
  | Some x => Ok x
  | None => Raise (IndexError "list index out of range")
  end.

(** [math.isfinite(x)] *)
Definition isfinite (x : float) : bool :=
  match Prim2SF x with
  | S754_zero _ | S754_finite _ _ _ => true
  | S754_infinity _ | S754_nan => false
  end.

(** The integer part of the finite value [(-1)^s * m * 2^e], towards zero. *)
Definition parte_inteira (s : bool) (m : positive) (e : Z) : Z :=
  cond_Zopp s
    match e with
    | Z0 => Zpos m
    | Zpos _ => Z.shiftl (Zpos m) e
    | Zneg k => Z.shiftr (Zpos m) (Zpos k)
    end.

Definition msg_int_nan : string := "cannot convert float NaN to integer".
Definition msg_int_inf : string := "cannot convert float infinity to integer".

(** [int(x)] for a float [x]: truncation towards zero; [ValueError] on NaN
    and [OverflowError] on an infinity. *)
Definition int (x : float) : resultado Z :=
  match Prim2SF x with
  | S754_nan => Raise (ValueError msg_int_nan)
  | S754_infinity _ => Raise (OverflowError msg_int_inf)
  | S754_zero _ => Ok 0
  | S754_finite s m e => Ok (parte_inteira s m e)
  end.

(** The only errors [int] knows. *)
Definition erro_de_conversao (e : excecao) : Prop :=
  e = ValueError msg_int_nan \/ e = OverflowError msg_int_inf.

(** [float(z)] for an int [z]: the nearest binary64 value. *)
Definition float_of_int (z : Z) : float :=
  SF2Prim (binary_normalize prec emax z 0 false).

Definition msg_div_grande : string :=
  "integer division result too large for a float".

(** The least magnitude that rounds past the largest float: halfway between
    it and 2^1024. *)
Definition limiar_float : Z := 2 ^ 1024 - 2 ^ 970.

(** [a / b] for two ints: the exact quotient rounded once to the nearest
    float, a tie going to the even one; [OverflowError] when that is past
    the largest float, [ZeroDivisionError] when [b] is zero. *)
Definition int_truediv (a b : Z) : resultado float :=
  if b =? 0 then Raise (ZeroDivisionError "division by zero")
  else if a =? 0 then Ok (if b <? 0 then (-0)%float else 0%float)
  else if limiar_float * Z.abs b <=? Z.abs a
  then Raise (OverflowError msg_div_grande)
  else
    let '(mz, ez, lz) := SFdiv_core_binary prec emax (Z.abs a) 0 (Z.abs b) 0 in
    Ok (SF2Prim (binary_round_aux prec emax (xorb (a <? 0) (b <? 0)) mz ez lz)).

(** The exact value of a finite float, as a rational. *)
Definition valor_exato (s : bool) (m : positive) (e : Z) : Q :=
  match e with
  | Z0 => inject_Z (cond_Zopp s (Zpos m))
  | Zpos k => inject_Z (cond_Zopp s (Zpos m) * 2 ^ Zpos k)
  | Zneg k => Qmake (cond_Zopp s (Zpos m)) (2 ^ k)%positive
  end.

(** [round(x)] for a float [x]: the nearest integer, a tie going to the even
    one; the same errors as [int]. *)
Definition round (x : float) : resultado Z :=
  match Prim2SF x with
  | S754_nan => Raise (ValueError msg_int_nan)
  | S754_infinity _ => Raise (OverflowError msg_int_inf)
  | S754_zero _ => Ok 0
  | S754_finite s m e =>
      let q := valor_exato s m e in
      let f := Qfloor q in
      match Qcompare (q - inject_Z f) (1 # 2) with
      | Lt => Ok f
      | Gt => Ok (f + 1)
      | Eq => Ok (if Z.even f then f else f + 1)
      end
  end.

End Py.
Export Py.

(** ** [math.hypot] *)

(** The interface of [math.hypot] on two arguments. *)
Class MathHypot : Type := hypot : float -> float -> float.

(** What C99 (Annex F) and the Python documentation fix about it: the result
    depends on the magnitudes only, the norm of the null vector is zero and a
    NaN or an infinity among the arguments gives a NaN or an infinity. *)
Class HypotLaws `{MathHypot} : Prop := {
  hypot_abs : forall x y, hypot x y = hypot (abs x) (abs y);
  hypot_zero : hypot 0%float 0%float = 0%float;
  hypot_nao_finito :
    forall x y, isfinite x && isfinite y = false -> isfinite (hypot x y) = false
}.

(** ** [otimizador.py]: the distance model *)

(** A point is a list [[longitude, latitude]]. *)
Definition ponto : Type := float * float.

Section Distancia.
Context `{MathHypot}.

Definition distancia_euclidiana (a b : ponto) : resultado Z :=
  int (hypot (a.1 - b.1) (a.2 - b.2) * 1000)%float.

(** The matrix of [otimizar_rota]:
    [[[distancia_euclidiana(p[i], p[j]) for j in range(size)] for i in range(size)]] *)
Definition dist_matrix (pontos_coordenadas : list ponto) : resultado (list (list Z)) :=
  let size := length pontos_coordenadas in
  mapM (fun i =>
    mapM (fun j =>
      a ← getitem pontos_coordenadas i;
      b ← getitem pontos_coordenadas j;
      distancia_euclidiana a b) (seq 0 size)) (seq 0 size).

(** The cost the specification describes: the scaled distance rounded to the
    nearest integer. *)
Definition custo_arredondado (a b : ponto) : resultado Z :=
  round (hypot (a.1 - b.1) (a.2 - b.2) * 1000)%float.

End Distancia.


(** [cost[i][j]] *)
Definition entrada (cost : list (list Z)) (i j : nat) : option Z :=
  linha ← cost !! i; linha !! j.

(** [truncamento x c]: the integer [c] is the finite float [x] cut at the
    point, i.e. the integer next to the exact value of [x] on the side of
    zero. *)
Definition truncamento (x : float) (c : Z) : Prop :=
  match Prim2SF x with
  | S754_zero _ => c = 0
  | S754_finite s m e =>
      let q := valor_exato s m e in
      if s then (inject_Z c - 1 < q /\ q <= inject_Z c)%Q
      else (inject_Z c <= q /\ q < inject_Z c + 1)%Q
  | S754_infinity _ | S754_nan => False
  end.

(** ** [otimizador.py]: the OR-Tools routing model

    [pywrapcp] is the OR-Tools binding.  What follows is its index manager for
    the one call the code makes, [RoutingIndexManager(n, 1, 0)]: one vehicle
    that starts and ends at node 0.  Node [i] has index [i]; the vehicle's end
    is a separate index, [n], that stands for node 0 again. *)

Module pywrapcp.

Record RoutingIndexManager : Type := {
  num_nodes : nat;
  num_vehicles : nat;
  depot : nat
}.

Definition IndexToNode (manager : RoutingIndexManager) (index : nat) : nat :=
  if (index <? num_nodes manager)%nat then index else depot manager.

(** A routing model once its arc cost evaluator is set. *)
Record RoutingModel : Type := {
  manager_of : RoutingIndexManager;
  arc_cost : nat -> nat -> resultado Z
}.

Definition Start (routing : RoutingModel) (vehicle : nat) : nat :=
  depot (manager_of routing).

Definition End (routing : RoutingModel) (vehicle : nat) : nat :=
  num_nodes (manager_of routing).

Definition IsEnd (routing : RoutingModel) (index : nat) : bool :=
  (num_nodes (manager_of routing) <=? index)%nat.

Inductive FirstSolutionStrategy : Type :=
  | AUTOMATIC
  | PATH_CHEAPEST_ARC.

Record RoutingSearchParameters : Type := {
  first_solution_strategy : FirstSolutionStrategy;
  time_limit_seconds : option Z
}.

Definition DefaultRoutingSearchParameters : RoutingSearchParameters :=
  {| first_solution_strategy := AUTOMATIC; time_limit_seconds := None |}.

(** The range of the 64-bit integers OR-Tools computes with. *)
Definition int64_min : Z := - 2 ^ 63.
Definition int64_max : Z := 2 ^ 63 - 1.

(** A solution: the value of [NextVar(index)] for each index, and the
    objective. *)
Record Assignment : Type := {
  Value_NextVar : nat -> nat;
  ObjectiveValue : Z
}.

(** What a search leaves behind: the value [SolveWithParameters] returns (a
    solution or [None]) and whether the search was cut by the time limit, which
    the routing model keeps in its status. *)
Record Busca : Type := {
  retorno : option Assignment;
  tempo_esgotado : bool
}.

End pywrapcp.
Export pywrapcp.

(** The search itself is OR-Tools': an interface. *)
Class Solver : Type :=
  SolveWithParameters : RoutingModel -> RoutingSearchParameters -> Busca.

(** [segue next i resto fim]: following [next] from index [i] runs through
    [resto] and then reaches [fim]. *)
Fixpoint segue (next : nat -> nat) (i : nat) (resto : list nat) (fim : nat) : Prop :=
  match resto with
  | [] => next i = fim
  | j :: resto' => next i = j /\ segue next j resto' fim
  end.

(** The cost of the arcs of a walk over indices. *)
Fixpoint custo_arcos (custo : nat -> nat -> resultado Z) (i : nat) (resto : list nat)
  : resultado Z :=
  match resto with
  | [] => Ok 0
  | j :: resto' =>
      c ← custo i j;
      t ← custo_arcos custo j resto';
      Ok (c + t)
  end.

(** The contract of a routing solution for one vehicle, at least one node and
    no optional node: the [NextVar] values chain the start, every other index
    once, and the end.  OR-Tools computes in 64-bit integers: the objective is
    one, and it is the sum of the arc costs along that chain when no arc cost
    is negative and the sum stays below the largest of them, the value at
    which the additions of OR-Tools saturate.  Past it the contract says
    nothing of the objective. *)
Class SolverContract `{Solver} : Prop :=
  solver_rota :
    forall routing parameters solution,
      let n := num_nodes (manager_of routing) in
      (1 <= n)%nat ->
      num_vehicles (manager_of routing) = 1%nat ->
      depot (manager_of routing) = 0%nat ->
      (forall i j, (i <= n)%nat -> (j <= n)%nat -> exists c, arc_cost routing i j = Ok c) ->
      retorno (SolveWithParameters routing parameters) = Some solution ->
      int64_min <= ObjectiveValue solution <= int64_max /\
      exists resto,
        (0%nat :: resto) ≡ₚ seq 0 n /\
        segue (Value_NextVar solution) 0 resto n /\
        forall total,
          custo_arcos (arc_cost routing) 0 (resto ++ [n]) = Ok total ->
          (forall i j c, arc_cost routing i j = Ok c -> 0 <= c) ->
          total < int64_max ->
          ObjectiveValue solution = total.

(** ** [otimizador.py]: [otimizar_rota] *)

Definition msg_poucos_pontos : string :=
  "São necessários pelo menos 2 pontos para otimizar".
Definition msg_sem_solucao : string :=
  "Não foi possível encontrar uma solução otimizada".

(** The error the specification calls [InvalidInput]. *)
Definition InvalidInput : excecao := ValueError msg_poucos_pontos.

Section Otimizar.
Context `{MathHypot} `{Solver}.

(** The extraction loop:
    [while not routing.IsEnd(index): append; index = next] and the last
    [append].  One unit of [fuel] pays one test of the loop condition; [None]
    is a loop still running when the fuel is spent. *)
Fixpoint extrair_sequencia (fuel : nat) (manager : RoutingIndexManager)
    (routing : RoutingModel) (solution : Assignment)
    (index : nat) (sequencia_otimizada : list nat) : option (list nat) :=
  match fuel with
  | O => None
  | S fuel' =>
      if IsEnd routing index
      then Some (sequencia_otimizada ++ [IndexToNode manager index])
      else extrair_sequencia fuel' manager routing solution
             (Value_NextVar solution index)
             (sequencia_otimizada ++ [IndexToNode manager index])
  end.

Definition otimizar_rota (fuel : nat) (pontos_coordenadas : list ponto)
  : option (resultado (list nat * float)) :=
  if (length pontos_coordenadas <? 2)%nat
  then Some (Raise (ValueError msg_poucos_pontos))
  else
    match dist_matrix pontos_coordenadas with
    | Raise e => Some (Raise e)
    | Ok dist_matrix =>
        let manager :=
          {| num_nodes := length dist_matrix; num_vehicles := 1; depot := 0 |} in
        let distance_callback := fun from_index to_index =>
          let from_node := IndexToNode manager from_index in
          let to_node := IndexToNode manager to_index in
          linha ← getitem dist_matrix from_node;
          getitem linha to_node in
        let routing :=
          {| manager_of := manager; arc_cost := distance_callback |} in
        let search_parameters := DefaultRoutingSearchParameters in
        let search_parameters :=
          {| first_solution_strategy := PATH_CHEAPEST_ARC;
             time_limit_seconds := time_limit_seconds search_parameters |} in
        let search_parameters :=
          {| first_solution_strategy := first_solution_strategy search_parameters;
             time_limit_seconds := Some 30 |} in
        match retorno (SolveWithParameters routing search_parameters) with
        | None => Some (Raise (RuntimeError msg_sem_solucao))
        | Some solution =>
            match extrair_sequencia fuel manager routing solution
                    (Start routing 0) [] with
            | None => None
            | Some sequencia_otimizada =>
                Some (distancia_total ← int_truediv (ObjectiveValue solution) 1000;
                      Ok (sequencia_otimizada, distancia_total))
            end
        end
    end.

(** The routing model and the search that [otimizar_rota] sets up on a
    matrix, named for the statements below. *)
Definition modelo_de (m : list (list Z)) : RoutingModel :=
  let manager := {| num_nodes := length m; num_vehicles := 1; depot := 0 |} in
  {| manager_of := manager;
     arc_cost := fun from_index to_index =>
       let from_node := IndexToNode manager from_index in
       let to_node := IndexToNode manager to_index in
       linha ← getitem m from_node;
       getitem linha to_node |}.

Definition busca_de (m : list (list Z)) : Busca :=
  SolveWithParameters (modelo_de m)
    {| first_solution_strategy := PATH_CHEAPEST_ARC;
       time_limit_seconds := Some 30 |}.

End Otimizar.

(** The cost of the closed walk a tour describes, on a cost matrix:
    the sum of [cost[tour[k]][tour[k+1]]]. *)
Fixpoint custo_percurso (cost : list (list Z)) (tour : list nat) : resultado Z :=
  match tour with
  | [] => Ok 0
  | i :: resto =>
      match resto with
      | [] => Ok 0
      | j :: _ =>
          linha ← getitem cost i;
          c ← getitem linha j;
          t ← custo_percurso cost resto;
          Ok (c + t)
      end
  end.

(** ** [otimizador.py]: [obter_rota_real]

    A JSON value, as the OpenRouteService client decodes it. *)
Inductive valor : Type :=
  | VNone
  | VBool (b : bool)
  | VInt (z : Z)
  | VFloat (x : float)
  | VStr (s : string)
  | VList (l : list valor)
  | VDict (d : gmap string valor).

Abbreviation dict := (gmap string valor).

(** The client of the [openrouteservice] package: an interface. *)
Class OpenRouteService : Type := {
  Cliente : Type;
  Client : string -> resultado Cliente;
  directions :
    Cliente -> list ponto -> string -> string -> bool -> bool -> resultado dict
}.

Section RotaReal.
Context `{OpenRouteService}.

(** The pair returned is what the call printed and how it ended; the value
    is [Some caminhos] for a dict and [None] for Python's [None]. *)
Definition obter_rota_real (api_key : string) (pontos_otimizados : list ponto)
    (profile : string) : list string * resultado (option dict) :=
  match
    cliente ← Client api_key;
    directions cliente pontos_otimizados profile "geojson" true false
  with
  | Ok caminhos => ([], Ok (Some caminhos))
  | Raise e =>
      if is_ApiError e
      then (["Erro na API OpenRouteService: " +:+ str e], Ok None)
      else if is_Exception e
      then (["Erro ao obter rota real: " +:+ str e], Ok None)
      else ([], Raise e)
  end.

End RotaReal.

(** ** [otimizador.py]: [calcular_estatisticas_rota] *)

Definition nome_do_tipo (v : valor) : string :=
  match v with
  | VNone => "NoneType"
  | VBool _ => "bool"
  | VInt _ => "int"
  | VFloat _ => "float"
  | VStr _ => "str"
  | VList _ => "list"
  | VDict _ => "dict"
  end.

(** [v[0]] *)
Definition subscript0 (v : valor) : resultado valor :=
  match v with
  | VList l =>
      match l with
      | x :: _ => Ok x
      | [] => Raise (IndexError "list index out of range")
      end
  | VStr s =>
      match s with
      | String c _ => Ok (VStr (String c EmptyString))
      | EmptyString => Raise (IndexError "string index out of range")
      end
  | VDict _ => Raise (KeyError "0")
  | _ => Raise (TypeError (nome_do_tipo v +:+ " object is not subscriptable"))
  end.

(** [v.get(k, padrao)] *)
Definition get (v : valor) (k : string) (padrao : valor) : resultado valor :=
  match v with
  | VDict d => Ok (default padrao (d !! k))
  | _ => Raise (AttributeError (nome_do_tipo v +:+ " object has no attribute get"))
  end.

(** [v / n] for an int constant [n], not zero. *)
Definition truediv (v : valor) (n : Z) : resultado float :=
  match v with
  | VInt z => int_truediv z n
  | VBool b => int_truediv (if b then 1 else 0) n
  | VFloat x => Ok (x / float_of_int n)%float
  | _ => Raise (TypeError ("unsupported operand type(s) for /: " +:+ nome_do_tipo v +:+ " and int"))
  end.

(** The dict [stats]. *)
Record estatisticas : Type := {
  num_pontos : nat;
  num_paradas : nat;
  distancia_km : float;
  tempo_horas : float;
  tempo_minutos : float
}.

(** [for i in range(n): acc = corpo(i, acc)], from [i = inicio]. *)
Fixpoint para_cada {A} (corpo : nat -> A -> resultado A) (inicio n : nat) (acc : A)
  : resultado A :=
  match n with
  | O => Ok acc
  | S n' => acc' ← corpo inicio acc; para_cada corpo (S inicio) n' acc'
  end.

Section Estatisticas.
Context `{MathHypot}.

(** The condition [caminhos and 'features' in caminhos]. *)
Definition tem_features (caminhos : option dict) : bool :=
  match caminhos with
  | None => false
  | Some d => negb (size d =? 0)%nat && bool_decide (is_Some (d !! "features"))
  end.

(** The [else] branch: the statistics from the straight-line distances. *)
Definition estatisticas_euclidianas (pontos_coordenadas : list ponto)
    (sequencia_otimizada : list nat) : resultado estatisticas :=
  distancia_total ←
    para_cada (fun i distancia_total =>
      idx_atual ← getitem sequencia_otimizada i;
      idx_proximo ← getitem sequencia_otimizada (i + 1);
      a ← getitem pontos_coordenadas idx_atual;
      b ← getitem pontos_coordenadas idx_proximo;
      d ← distancia_euclidiana a b;
      Ok (distancia_total + d)) 0 (length sequencia_otimizada - 1) 0;
  km ← int_truediv distancia_total 1000;
  let horas := (km / 60)%float in
  Ok {| num_pontos := length pontos_coordenadas;
        num_paradas := length sequencia_otimizada;
        distancia_km := km;
        tempo_horas := horas;
        tempo_minutos := (horas * 60)%float |}.

Definition calcular_estatisticas_rota (pontos_coordenadas : list ponto)
    (sequencia_otimizada : list nat) (caminhos : option dict)
  : resultado estatisticas :=
  if tem_features caminhos then
    features ←
      match caminhos ≫= (.!! "features") with
      | Some v => Ok v
      | None => Raise (KeyError "features")
      end;
    primeira ← subscript0 features;
    properties ← get primeira "properties" (VDict ∅);
    summary ← get properties "summary" (VDict ∅);
    distance ← get summary "distance" (VInt 0);
    km ← truediv distance 1000;
    duration ← get summary "duration" (VInt 0);
    horas ← truediv duration 3600;
    duration' ← get summary "duration" (VInt 0);
    minutos ← truediv duration' 60;
    Ok {| num_pontos := length pontos_coordenadas;
          num_paradas := length sequencia_otimizada;
          distancia_km := km;
          tempo_horas := horas;
          tempo_minutos := minutos |}
  else estatisticas_euclidianas pontos_coordenadas sequencia_otimizada.

End Estatisticas.

(** ** [otimizador.py]: [gerar_mapa]

    More of Python on JSON values. *)

(** [len(v)] *)
Definition len (v : valor) : resultado nat :=
  match v with
  | VList l => Ok (length l)
  | VStr s => Ok (String.length s)
  | VDict d => Ok (size d)
  | _ => Raise (TypeError ("object of type " +:+ nome_do_tipo v +:+ " has no len()"))
  end.

(** [v[i]] for an int [i >= 0]. *)
Definition subscript_int (v : valor) (i : nat) : resultado valor :=
  match v with
  | VList l => getitem l i
  | VStr s =>
      match String.get i s with
      | Some c => Ok (VStr (String c EmptyString))
      | None => Raise (IndexError "string index out of range")
      end
  | VDict _ => Raise (KeyError (pretty i))
  | _ => Raise (TypeError (nome_do_tipo v +:+ " object is not subscriptable"))
  end.

(** [v[k]] for a str [k]. *)
Definition subscript_str (v : valor) (k : string) : resultado valor :=
  match v with
  | VDict d =>
      match d !! k with
      | Some x => Ok x
      | None => Raise (KeyError k)
      end
  | VList _ => Raise (TypeError "list indices must be integers or slices, not str")
  | VStr _ => Raise (TypeError "string indices must be integers")
  | _ => Raise (TypeError (nome_do_tipo v +:+ " object is not subscriptable"))
  end.

(** The characters of a str, each a str. *)
Fixpoint caracteres (s : string) : list valor :=
  match s with
  | EmptyString => []
  | String c s' => VStr (String c EmptyString) :: caracteres s'
  end.

(** [for x in v]: the values the iteration yields.  A dict yields its keys,
    here in the order of the map, which keeps no record of Python's order
    of insertion. *)
Definition iterar (v : valor) : resultado (list valor) :=
  match v with
  | VList l => Ok l
  | VStr s => Ok (caracteres s)
  | VDict d => Ok (VStr <$> (map_to_list d).*1)
  | _ => Raise (TypeError (nome_do_tipo v +:+ " object is not iterable"))
  end.

(** The integer nearest to a rational, a tie going to the even one. *)
Definition arredonda (q : Q) : Z :=
  let f := Qfloor q in
  match Qcompare (q - inject_Z f) (1 # 2) with
  | Lt => f
  | Gt => f + 1
  | Eq => if Z.even f then f else f + 1
  end.

(** [k] zeros. *)
Definition zeros (k : nat) : string := String.concat "" (replicate k "0").

(** The digits of [r / 10^n] with [n] decimals, for [r >= 0]. *)
Definition decimal (n : nat) (r : Z) : string :=
  let base := 10 ^ Z.of_nat n in
  let inteira := pretty (r / base) in
  let fracao := pretty (r mod base) in
  match n with
  | O => inteira
  | S _ => inteira +:+ "." +:+ zeros (n - String.length fracao) +:+ fracao
  end.

(** [format(x, '.nf')]: the exact value of the float rounded to [n] decimals,
    a tie going to the even digit; the sign is the float's own. *)
Definition format_f (n : nat) (x : float) : string :=
  match Prim2SF x with
  | S754_nan => "nan"
  | S754_infinity s => if s then "-inf" else "inf"
  | S754_zero s => (if s then "-" else "") +:+ decimal n 0
  | S754_finite s m e =>
      (if s then "-" else "") +:+
      decimal n (arredonda (valor_exato false m e * inject_Z (10 ^ Z.of_nat n)))
  end.

(** The part of [folium] the code calls: its objects as values, holding the
    arguments they were made with, and a map with the elements added to it
    in order. *)
Module folium.

Record Icon : Type := {
  icon : string;
  color : string;
  prefix : string
}.

Record Popup : Type := {
  html : string;
  max_width : Z
}.

Inductive Elemento : Type :=
  | Marker (location : float * float) (popup : Popup) (tooltip : string)
      (icon : Icon)
  | PolyLine (locations : list (valor * valor)) (color : string) (weight : Z)
      (opacity : float) (dash_array : option string) (tooltip : string)
  | TileLayer (tiles : string) (name : string)
  | LayerControl
  | LatLngPopup
  | MiniMap (toggle_display : bool)
  | Fullscreen.

Record Map : Type := {
  location : float * float;
  zoom_start : Z;
  control_scale : bool;
  tiles : string;
  children : list Elemento
}.

(** [elemento.add_to(mapa)] *)
Definition add_to (elemento : Elemento) (mapa : Map) : Map :=
  {| location := location mapa;
     zoom_start := zoom_start mapa;
     control_scale := control_scale mapa;
     tiles := tiles mapa;
     children := children mapa ++ [elemento] |}.

(** What folium checks of the locations it is given, when a [Map], a
    [Marker] or a [PolyLine] is made: an interface.  [validate_location] is
    the check of one location [[lat, lon]] of two floats, [validate_locations]
    the check of the list of locations of a line, whose items are whatever
    the caller took from the route. *)
Class Validacao : Type := {
  validate_location : float * float -> resultado unit;
  validate_locations : list (valor * valor) -> resultado unit
}.

End folium.

(** Both coordinates are finite; one of them is a NaN. *)
Definition finito (p : float * float) : bool := isfinite p.1 && isfinite p.2.
Definition tem_nan (p : float * float) : bool := is_nan p.1 || is_nan p.2.

(** What folium documents of its checks: a location of two finite floats is
    accepted and one with a NaN is refused with [ValueError]; an empty list
    of locations is refused with [ValueError], and a list that is not empty
    of locations of two finite floats is accepted.  The laws say nothing of
    an infinite coordinate, nor of the items of a route that are no
    floats. *)
Class ValidacaoLaws `{folium.Validacao} : Prop := {
  validate_location_Ok :
    forall loc, finito loc = true -> folium.validate_location loc = Ok tt;
  validate_location_nan :
    forall loc, tem_nan loc = true ->
      exists msg, folium.validate_location loc = Raise (ValueError msg);
  validate_locations_vazio :
    exists msg, folium.validate_locations [] = Raise (ValueError msg);
  validate_locations_Ok :
    forall locs : list (float * float),
      locs <> [] -> Forall (fun loc => finito loc = true) locs ->
      folium.validate_locations
        ((fun c : float * float => (VFloat c.1, VFloat c.2)) <$> locs) = Ok tt
}.

(** [list(reversed(p))] for a point [p = [lon, lat]]. *)
Definition reversed (p : ponto) : float * float := (p.2, p.1).

(** A line feed and a double quote. *)
Definition nl : string := String (Ascii.ascii_of_nat 10) EmptyString.
Definition aspas : string := String (Ascii.ascii_of_nat 34) EmptyString.

(** Lines 193-201: the colour and the icon of the marker of stop [i] among
    [n]. *)
Definition cor_e_icone (i n : nat) : string * string :=
  if (i =? 0)%nat then ("green", "play")
  else if (i =? n - 1)%nat then ("red", "stop")
  else ("blue", "info-sign").

(** Lines 204-212: the f-string [popup_html]. *)
Definition popup_html (cor : string) (i : nat) (nome_ponto : string)
    (cordenadas : float * float) : string :=
  nl +:+
  "        <div style=" +:+ aspas +:+ "font-family: Arial; min-width: 150px;"
    +:+ aspas +:+ ">" +:+ nl +:+
  "            <h4 style=" +:+ aspas +:+ "margin: 0; color: " +:+ cor +:+ ";"
    +:+ aspas +:+ ">Parada #" +:+ pretty (i + 1)%nat +:+ "</h4>" +:+ nl +:+
  "            <hr style=" +:+ aspas +:+ "margin: 5px 0;" +:+ aspas +:+ ">"
    +:+ nl +:+
  "            <b>" +:+ nome_ponto +:+ "</b><br>" +:+ nl +:+
  "            <small>Lat: " +:+ format_f 6 cordenadas.1 +:+ "<br>" +:+ nl +:+
  "            Lon: " +:+ format_f 6 cordenadas.2 +:+ "</small>" +:+ nl +:+
  "        </div>" +:+ nl +:+
  "        ".

(** The condition
    [caminhos and 'features' in caminhos and len(caminhos['features']) > 0]. *)
Definition tem_rota_real (caminhos : option dict) : resultado bool :=
  if tem_features caminhos then
    match caminhos ≫= (.!! "features") with
    | Some features => n ← len features; Ok (0 <? n)%nat
    | None => Raise (KeyError "features")
    end
  else Ok false.

(** [caminhos['features'][0]] *)
Definition primeira_feature (caminhos : option dict) : resultado valor :=
  features ←
    match caminhos ≫= (.!! "features") with
    | Some v => Ok v
    | None => Raise (KeyError "features")
    end;
  subscript0 features.

(** Lines 256-267: the layers and controls every map ends with. *)
Definition controles : list folium.Elemento :=
  [ folium.TileLayer "cartodbpositron" "Mapa Claro";
    folium.TileLayer "cartodbdark_matter" "Mapa Escuro";
    folium.LayerControl;
    folium.LatLngPopup;
    folium.MiniMap true;
    folium.Fullscreen ].

(** The map that [gerar_mapa] returns, piece by piece. *)
Definition mapa_de (centro : float * float) (marcadores : list folium.Elemento)
    (linha : folium.Elemento) : folium.Map :=
  {| folium.location := centro;
     folium.zoom_start := 6;
     folium.control_scale := true;
     folium.tiles := "OpenStreetMap";
     folium.children := marcadores ++ linha :: controles |}.

Section Mapa.
Context `{folium.Validacao}.

(** Lines 187-220: the marker that one turn of the loop builds, for the stop
    at position [i] of the sequence.  [folium.Marker] checks its location
    once its arguments are made. *)
Definition marcador (pontos_coordenadas : list ponto) (rotas_nomes : list string)
    (sequencia_otimizada : list nat) (i : nat) : resultado folium.Elemento :=
  idx ← getitem sequencia_otimizada i;
  p ← getitem pontos_coordenadas idx;
  let cordenadas := reversed p in
  nome_ponto ← getitem rotas_nomes idx;
  let '(cor, icone) := cor_e_icone i (length sequencia_otimizada) in
  _ ← folium.validate_location cordenadas;
  Ok (folium.Marker cordenadas
        {| folium.html := popup_html cor i nome_ponto cordenadas;
           folium.max_width := 200 |}
        ("#" +:+ pretty (i + 1)%nat +:+ " - " +:+ nome_ponto)
        {| folium.icon := icone; folium.color := cor; folium.prefix := "fa" |}).

(** Lines 224-243: the line of the real route.  [folium.PolyLine] checks its
    locations. *)
Definition linha_real (caminhos : option dict) : resultado folium.Elemento :=
  primeira ← primeira_feature caminhos;
  geometry ← subscript_str primeira "geometry";
  coords ← subscript_str geometry "coordinates";
  primeira' ← primeira_feature caminhos;
  properties ← get primeira' "properties" (VDict ∅);
  summary ← get properties "summary" (VDict ∅);
  distancia_m ← get summary "distance" (VInt 0);
  duracao_s ← get summary "duration" (VInt 0);
  km ← truediv distancia_m 1000;
  horas ← truediv duracao_s 3600;
  let tooltip_text :=
    "Distância: " +:+ format_f 1 km +:+ " km | Tempo: " +:+ format_f 1 horas
      +:+ "h" in
  itens ← iterar coords;
  locations ←
    mapM (fun coord =>
      lat ← subscript_int coord 1;
      lon ← subscript_int coord 0;
      Ok (lat, lon)) itens;
  _ ← folium.validate_locations locations;
  Ok (folium.PolyLine locations "#2E86DE" 4 0x1.999999999999ap-1 None
        tooltip_text).

(** Lines 245-254: the straight lines between the stops. *)
Definition linha_reta (pontos_coordenadas : list ponto)
    (sequencia_otimizada : list nat) : resultado folium.Elemento :=
  pontos_rota ←
    mapM (fun i => p ← getitem pontos_coordenadas i; Ok (reversed p))
      sequencia_otimizada;
  let locations :=
    (fun c : float * float => (VFloat c.1, VFloat c.2)) <$> pontos_rota in
  _ ← folium.validate_locations locations;
  Ok (folium.PolyLine locations "#EE5A6F" 3 0x1.3333333333333p-1 (Some "10")
        "Rota aproximada (linha reta)").

(** [folium.Map] checks its location; the layers and the controls are made
    of constants. *)
Definition gerar_mapa (pontos_coordenadas : list ponto) (rotas_nomes : list string)
    (sequencia_otimizada : list nat) (caminhos : option dict)
  : resultado folium.Map :=
  primeiro_idx ← getitem sequencia_otimizada 0;
  p ← getitem pontos_coordenadas primeiro_idx;
  let centro := reversed p in
  _ ← folium.validate_location centro;
  let mapa :=
    {| folium.location := centro;
       folium.zoom_start := 6;
       folium.control_scale := true;
       folium.tiles := "OpenStreetMap";
       folium.children := [] |} in
  mapa ←
    para_cada (fun i mapa =>
      m ← marcador pontos_coordenadas rotas_nomes sequencia_otimizada i;
      Ok (folium.add_to m mapa)) 0 (length sequencia_otimizada) mapa;
  real ← tem_rota_real caminhos;
  linha ←
    (if real : bool then linha_real caminhos
     else linha_reta pontos_coordenadas sequencia_otimizada);
  let mapa := folium.add_to linha mapa in
  Ok (foldl (fun mapa elemento => folium.add_to elemento mapa) mapa controles).

(** Lines 175-220: the centre of the map and its markers, which do not
    depend on the route. *)
Definition centro_e_marcadores (pontos_coordenadas : list ponto)
    (rotas_nomes : list string) (sequencia_otimizada : list nat)
  : resultado ((float * float) * list folium.Elemento) :=
  primeiro_idx ← getitem sequencia_otimizada 0;
  p ← getitem pontos_coordenadas primeiro_idx;
  _ ← folium.validate_location (reversed p);
  marcadores ←
    mapM (marcador pontos_coordenadas rotas_nomes sequencia_otimizada)
      (seq 0 (length sequencia_otimizada));
  Ok (reversed p, marcadores).

End Mapa.

(** The stops of a sequence are indices of both lists, and the points they
    stand for have finite coordinates. *)
Definition paradas_validas (pontos : list ponto) (nomes : list string)
    (sequencia : list nat) : Prop :=
  Forall (fun idx =>
    (idx < length nomes)%nat /\
    exists p : ponto, pontos !! idx = Some p /\ finito p = true) sequencia.

(** A stop that is no index of one of the lists, or stands for a point with
    a NaN among its coordinates. *)
Definition parada_invalida (pontos : list ponto) (nomes : list string)
    (idx : nat) : Prop :=
  (length nomes <= idx)%nat \/
  match (pontos !! idx : option ponto) with
  | Some p => tem_nan p = true
  | None => True
  end.

(** ** [app.py]: the steps around the optimizer *)

(** Line 271: [[pontos_coordenadas[i] for i in sequencia]]. *)
Definition pontos_otimizados (pontos_coordenadas : list ponto)
    (sequencia : list nat) : resultado (list ponto) :=
  mapM (fun i => getitem pontos_coordenadas i) sequencia.

(** Line 288: [[rotas_nomes[i] for i in sequencia]]. *)
Definition sequencia_nomes (rotas_nomes : list string) (sequencia : list nat)
  : resultado (list string) :=
  mapM (fun i => getitem rotas_nomes i) sequencia.

(** ** One more law of [math.hypot] *)

(** [x < 0], the infinity included (a negative zero is no negative number). *)
Definition negativo (x : float) : bool :=
  match Prim2SF x with
  | S754_finite s _ _ | S754_infinity s => s
  | S754_zero _ | S754_nan => false
  end.

(** A norm is never negative. *)
Class HypotNaoNegativo `{MathHypot} : Prop :=
  hypot_nao_negativo : forall x y, negativo (hypot x y) = false.

Definition SF_nao_negativo (x : spec_float) : Prop :=
  match x with
  | S754_finite s _ _ | S754_infinity s => s = false
  | S754_zero _ | S754_nan => True
  end.

(** ** Instances to run the model

    A solver that visits the nodes in the order given, [0, 1, ..., n-1]: the
    only route there is on two points, one valid route on more.  Its
    objective is the sum of the arc costs, kept within int64.  It finds
    its route at once, or (the two variants) finds it as the time limit
    strikes, or finds nothing before the time limit strikes. *)
Definition busca_na_ordem (routing : RoutingModel) : option Assignment :=
  let n := num_nodes (manager_of routing) in
  match custo_arcos (arc_cost routing) 0 (seq 1 n) with
  | Ok c =>
      Some {| Value_NextVar := S;
              ObjectiveValue := Z.max int64_min (Z.min c int64_max) |}
  | Raise _ => None
  end.

Definition solver_na_ordem : Solver := fun routing _ =>
  {| retorno := busca_na_ordem routing; tempo_esgotado := false |}.

Definition solver_interrompido : Solver := fun routing _ =>
  {| retorno := busca_na_ordem routing; tempo_esgotado := true |}.

Definition solver_sem_solucao : Solver := fun _ _ =>
  {| retorno := None; tempo_esgotado := true |}.

(** A routing service that answers every request in the same way. *)
Definition ors_constante (resposta : resultado dict) : OpenRouteService :=
  {| Cliente := unit;
     Client := fun _ => Ok tt;
     directions := fun _ _ _ _ _ _ => resposta |}.

(** ** A reference [hypot]

    One function that meets [HypotLaws], used to run the model on concrete
    inputs.  The special cases are those of CPython's [math.hypot]
    (magnitudes first; an infinity wins over a NaN; the largest magnitude is
    returned when it is zero), and the norm of a vector on an axis is the
    magnitude of its other coordinate, as it is for [math.hypot].  Off the
    axes it is the rounded root of the rounded sum of squares, which may
    differ from [math.hypot] in the last place: the concrete inputs below
    stay on an axis. *)
Definition hypot_ref : MathHypot := fun x y =>
  let x := abs x in
  let y := abs y in
  let max := if (0 <? x)%float then x else 0%float in
  let max := if (max <? y)%float then y else max in
  if is_infinity max then max
  else if is_nan x || is_nan y then nan
  else if (max =? 0)%float then max
  else if (y =? 0)%float then x
  else if (x =? 0)%float then y
  else sqrt (x * x + y * y).

(** Two points one degree apart. *)
Definition dois_pontos : list ponto := [(0, 0); (1, 0)]%float.

(** Their cost matrix. *)
Definition matriz_dois_pontos : list (list Z) := [[0; 1000]; [1000; 0]].

(** ** A reference for the checks of folium

    One pair of checks that meets [ValidacaoLaws], used to run the model on
    concrete inputs: it refuses a NaN and no other float, and in a line it
    takes an int or a bool for a number and refuses what is not a number. *)
Definition msg_nan : string := "Location values cannot contain NaNs.".

Definition coordenada_valida (v : valor) : resultado unit :=
  match v with
  | VFloat x => if is_nan x then Raise (ValueError msg_nan) else Ok tt
  | VInt _ | VBool _ => Ok tt
  | _ => Raise (ValueError "Location should consist of two numerical values.")
  end.

Definition folium_ref : folium.Validacao :=
  {| folium.validate_location := fun loc =>
       if tem_nan loc then Raise (ValueError msg_nan) else Ok tt;
     folium.validate_locations := fun locs =>
       match locs with
       | [] => Raise (ValueError "Locations is empty.")
       | _ =>
           _ ← mapM (fun loc : valor * valor =>
                  _ ← coordenada_valida loc.1; coordenada_valida loc.2) locs;
           Ok tt
       end |}.

(** The map of the tour 0, 1, 0 on the two points, drawn without a real
    route. *)
Definition mapa_dois_pontos : folium.Map :=
  Eval vm_compute in
    match @gerar_mapa folium_ref dois_pontos ["A"; "B"] [0; 1; 0]%nat None with
    | Ok mapa => mapa
    | Raise _ => mapa_de (0, 0)%float [] folium.LayerControl
    end.

(** A route of one feature, through the given positions. *)
Definition rota_por (cs : list valor) : dict :=
  {[ "features" :=
       VList [VDict {[ "geometry" := VDict {[ "coordinates" := VList cs ]} ]}] ]}.

(** Two positions, the second with an altitude. *)
Definition posicoes_exemplo : list valor :=
  [VList [VInt 1; VInt 2]; VList [VInt 3; VInt 4; VInt 9]].

(** The map of the tour 0, 1, 0 on the two points with a real route through
    the two positions. *)
Definition mapa_com_rota : folium.Map :=
  Eval vm_compute in
    match @gerar_mapa folium_ref dois_pontos ["A"; "B"] [0; 1; 0]%nat
            (Some (rota_por posicoes_exemplo)) with
    | Ok mapa => mapa
    | Raise _ => mapa_dois_pontos
    end.

(** ** Facts on binary64 arithmetic *)

Section FloatFacts.

Lemma Prim2SF_zero : Prim2SF 0 = S754_zero false.
Proof. by vm_compute. Qed.

Lemma Prim2SF_infinity : Prim2SF infinity = S754_infinity false.
Proof. by vm_compute. Qed.

Lemma Prim2SF_nan : Prim2SF nan = S754_nan.
Proof. by vm_compute. Qed.

Lemma Prim2SF_1000 : Prim2SF 1000 = S754_finite false 8796093022208000 (-43).
Proof. by vm_compute. Qed.

Lemma abs_abs (x : float) : abs (abs x) = abs x.
Proof. apply Prim2SF_inj. rewrite !abs_spec. by destruct (Prim2SF x). Qed.

(** Rounding is blind to the sign it is given. *)
Lemma SFabs_binary_round_aux s s' m e l :
  SFabs (binary_round_aux prec emax s m e l)
  = SFabs (binary_round_aux prec emax s' m e l).
Proof.
  unfold binary_round_aux.
  destruct (shr_fexp prec emax m e l) as [mrs' e'].
  destruct (shr_fexp prec emax _ e' loc_Exact) as [mrs'' e''].
  destruct (shr_m mrs''); try done.
  by destruct (_ <=? _).
Qed.

Lemma SFabs_binary_normalize m e sz sz' :
  SFabs (binary_normalize prec emax (- m) e sz)
  = SFabs (binary_normalize prec emax m e sz').
Proof.
  destruct m as [|p|p]; simpl; try done; unfold binary_round;
    destruct (shl_align _ _ _); apply SFabs_binary_round_aux.
Qed.

Lemma SFabs_sub_sym x y : SFabs (SF64sub x y) = SFabs (SF64sub y x).
Proof.
  destruct x as [sx|sx| |sx mx ex], y as [sy|sy| |sy my ey];
    try (by destruct sx, sy); try done.
  unfold SF64sub, SFsub. rewrite (Z.min_comm ey ex).
  etrans; [|apply (SFabs_binary_normalize _ _ false false)].
  do 2 f_equal. lia.
Qed.

(** [x - y] and [y - x] have the same magnitude, whatever [x] and [y]. *)
Lemma abs_sub_sym (x y : float) : abs (x - y) = abs (y - x).
Proof.
  apply Prim2SF_inj. rewrite !abs_spec, !sub_spec. apply SFabs_sub_sym.
Qed.

Lemma sub_diag (x : float) : isfinite x = true -> (x - x)%float = 0%float.
Proof.
  unfold isfinite. intros Hx. apply Prim2SF_inj.
  rewrite sub_spec, Prim2SF_zero.
  destruct (Prim2SF x) as [s|s| |s m e]; try done.
  - by destruct s.
  - unfold SF64sub, SFsub. by rewrite Z.sub_diag.
Qed.

Lemma isfinite_sub (x y : float) :
  isfinite x && isfinite y = false -> isfinite (x - y) = false.
Proof.
  unfold isfinite. rewrite sub_spec.
  destruct (Prim2SF x) as [sx|sx| |sx mx ex], (Prim2SF y) as [sy|sy| |sy my ey];
    try done; by destruct sx, sy.
Qed.

Lemma isfinite_mul_1000 (x : float) :
  isfinite x = false -> isfinite (x * 1000) = false.
Proof.
  unfold isfinite. rewrite mul_spec, Prim2SF_1000. by destruct (Prim2SF x).
Qed.

Lemma isfinite_is_nan (x : float) : isfinite x = true -> is_nan x = false.
Proof.
  unfold isfinite, is_nan. rewrite FloatAxioms.eqb_spec.
  destruct (Prim2SF x) as [s|s| |s m e]; try done; intros _.
  unfold SFeqb, SFcompare.
  rewrite Z.compare_refl, Pos.compare_cont_refl. by destruct s.
Qed.

Lemma int_isfinite (x : float) (c : Z) : int x = Ok c -> isfinite x = true.
Proof. unfold int, isfinite. by destruct (Prim2SF x). Qed.

Lemma int_Raise (x : float) (e : excecao) :
  int x = Raise e -> isfinite x = false /\ erro_de_conversao e.
Proof.
  unfold int, isfinite, erro_de_conversao.
  destruct (Prim2SF x); intros [= <-]; auto.
Qed.

Lemma int_nao_finito (x : float) :
  isfinite x = false -> exists e, int x = Raise e /\ erro_de_conversao e.
Proof.
  unfold int, isfinite, erro_de_conversao.
  destruct (Prim2SF x); intros; try done; eauto.
Qed.

Lemma shiftr_bounds (m k : positive) :
  Z.shiftr (Zpos m) (Zpos k) * Zpos (2 ^ k) <= Zpos m
  < (Z.shiftr (Zpos m) (Zpos k) + 1) * Zpos (2 ^ k).
Proof.
  rewrite Z.shiftr_div_pow2 by lia. rewrite Pos2Z.inj_pow.
  assert (0 < 2 ^ Zpos k) by (apply Z.pow_pos_nonneg; lia).
  pose proof (Z.div_mod (Zpos m) (2 ^ Zpos k)).
  pose proof (Z.mod_pos_bound (Zpos m) (2 ^ Zpos k)).
  nia.
Qed.

(** [int] cuts at the point: it never rounds up in magnitude. *)
Lemma int_truncamento (x : float) (c : Z) : int x = Ok c -> truncamento x c.
Proof.
  unfold int, truncamento.
  destruct (Prim2SF x) as [s|s| |s m e]; try done; [by intros [= <-]|].
  intros [= <-]. unfold parte_inteira, valor_exato.
  destruct e as [|k|k].
  - destruct s; simpl; unfold Qlt, Qle, Qminus, Qplus; simpl; lia.
  - rewrite Z.shiftl_mul_pow2 by lia.
    destruct s; simpl cond_Zopp; unfold Qlt, Qle, Qminus, Qplus;
      simpl Qnum; simpl Qden; lia.
  - pose proof (shiftr_bounds m k).
    destruct s; simpl cond_Zopp; unfold Qlt, Qle, Qminus, Qplus;
      simpl Qnum; simpl Qden; lia.
Qed.

End FloatFacts.

Ltac sf_simpl :=
  repeat (progress (
    rewrite ?ltb_spec, ?FloatAxioms.eqb_spec, ?abs_spec, ?Prim2SF_zero,
      ?Prim2SF_infinity, ?Prim2SF_nan, ?orb_true_r;
    repeat match goal with H : Prim2SF _ = _ |- _ => rewrite !H end;
    simpl)).

Lemma hypot_ref_nao_finito x y :
  isfinite x && isfinite y = false -> isfinite (hypot_ref x y) = false.
Proof.
  unfold hypot_ref, is_infinity, is_nan, isfinite.
  destruct (Prim2SF x) as [sx|sx| |sx mx ex] eqn:Hx,
           (Prim2SF y) as [sy|sy| |sy my ey] eqn:Hy;
    try done; intros _; sf_simpl; done.
Qed.

#[global] Instance hypot_ref_laws : @HypotLaws hypot_ref.
Proof.
  split.
  - intros x y. unfold hypot, hypot_ref. by rewrite !abs_abs.
  - by vm_compute.
  - apply hypot_ref_nao_finito.
Qed.

(** ** The error monad and list comprehensions *)

Lemma bind_Ok_inv {A B} (r : resultado A) (k : A -> resultado B) (b : B) :
  r ≫= k = Ok b -> exists a, r = Ok a /\ k a = Ok b.
Proof. destruct r as [a|e]; [eauto|done]. Qed.

Lemma bind_Raise_inv {A B} (r : resultado A) (k : A -> resultado B) (e : excecao) :
  r ≫= k = Raise e -> r = Raise e \/ exists a, r = Ok a /\ k a = Raise e.
Proof. destruct r as [a|e']; [eauto|]. intros [= ->]. by left. Qed.

Section Comprehension.
Context {A B : Type} (f : A -> resultado B).

Lemma mapM_Ok_inv (l : list A) (r : list B) :
  mapM f l = Ok r -> Forall2 (fun x y => f x = Ok y) l r.
Proof.
  revert r. induction l as [|x l IH]; intros r; simpl.
  - intros [= <-]. constructor.
  - intros (y & Hy & Hk)%bind_Ok_inv.
    apply bind_Ok_inv in Hk as (k & Hk & [= <-]).
    constructor; auto.
Qed.

Lemma mapM_Raise_inv (l : list A) (e : excecao) :
  mapM f l = Raise e -> exists x, x ∈ l /\ f x = Raise e.
Proof.
  induction l as [|x l IH]; simpl; [done|].
  intros [Hx|(y & _ & Hk)]%bind_Raise_inv.
  - exists x. split; [left|done].
  - apply bind_Raise_inv in Hk as [Hk|(k & _ & [=])].
    destruct (IH Hk) as (x' & ? & ?). exists x'. split; [by right|done].
Qed.

Lemma mapM_raises (l : list A) (x : A) (e : excecao) :
  x ∈ l -> f x = Raise e -> exists e', mapM f l = Raise e'.
Proof.
  intros Hin Hx. induction Hin as [x l|x y l _ IH]; simpl.
  - rewrite Hx. eauto.
  - destruct (f y); simpl; [|eauto].
    destruct (IH Hx) as [e' ->]. eauto.
Qed.

End Comprehension.

Lemma getitem_Ok {A} (l : list A) (i : nat) (x : A) :
  getitem l i = Ok x <-> l !! i = Some x.
Proof. unfold getitem. destruct (l !! i); split; congruence. Qed.

(** ** The division of ints *)

(** The quotient is rounded once, also past 2^53, and a quotient past the
    floats is an error. *)
Lemma int_truediv_exemplos :
  int_truediv 2000 1000 = Ok 2%float /\
  int_truediv 52305893961256838 1000 = Ok 0x1.7c9351d57146bp+45%float /\
  int_truediv int64_max 1000 = Ok 0x1.0624dd2f1a9fcp+53%float /\
  int_truediv (10 ^ 400) 1000 = Raise (OverflowError msg_div_grande).
Proof. repeat split; by vm_compute. Qed.

(** An int64 divided by 1000 is a float. *)
Lemma int_truediv_int64 (a : Z) :
  int64_min <= a <= int64_max -> exists x, int_truediv a 1000 = Ok x.
Proof.
  intros Ha. unfold int_truediv.
  change (1000 =? 0) with false. cbv iota.
  destruct (a =? 0); [eauto|].
  assert (2 ^ 63 < limiar_float * Z.abs 1000) as Hl by (by vm_compute).
  assert ((limiar_float * Z.abs 1000 <=? Z.abs a) = false) as ->.
  { apply Z.leb_gt. unfold int64_min, int64_max in Ha.
    generalize dependent (limiar_float * Z.abs 1000). intros L HL. lia. }
  destruct (SFdiv_core_binary prec emax (Z.abs a) 0 (Z.abs 1000) 0)
    as [[mz ez] lz].
  eauto.
Qed.

(** The division of an int by a constant that is not zero raises nothing
    but [OverflowError]. *)
Lemma int_truediv_Raise (a b : Z) (e : excecao) :
  b <> 0 -> int_truediv a b = Raise e -> e = OverflowError msg_div_grande.
Proof.
  intros Hb. unfold int_truediv.
  apply Z.eqb_neq in Hb as ->.
  destruct (a =? 0); [done|].
  destruct (_ <=? _); [by intros [= <-]|].
  by destruct (SFdiv_core_binary prec emax (Z.abs a) 0 (Z.abs b) 0) as [[mz ez] lz].
Qed.

(** ** The distance model *)

Section DistanciaFacts.
Context `{MathHypot}.

Lemma dist_matrix_linhas (pontos : list ponto) (m : list (list Z)) :
  dist_matrix pontos = Ok m ->
  length m = length pontos /\ Forall (fun linha => length linha = length pontos) m.
Proof.
  intros Hm%mapM_Ok_inv. split.
  - apply Forall2_length in Hm. by rewrite length_seq in Hm.
  - apply Forall_forall. intros linha [k Hk]%list_elem_of_lookup.
    destruct (Forall2_lookup_r _ _ _ _ _ Hm Hk) as (i & _ & Hl).
    apply mapM_Ok_inv, Forall2_length in Hl. by rewrite length_seq in Hl.
Qed.

(** Every entry of the matrix is the distance of the two points. *)
Lemma dist_matrix_entrada (pontos : list ponto) (m : list (list Z))
    (i j : nat) (a b : ponto) :
  dist_matrix pontos = Ok m ->
  pontos !! i = Some a -> pontos !! j = Some b ->
  exists c, entrada m i j = Some c /\ distancia_euclidiana a b = Ok c.
Proof.
  intros Hm%mapM_Ok_inv Ha Hb.
  assert (i < length pontos)%nat as Hi by (by eapply lookup_lt_Some).
  assert (j < length pontos)%nat as Hj by (by eapply lookup_lt_Some).
  destruct (Forall2_lookup_l _ _ _ i i Hm) as (linha & Hlinha & Hl).
  { by rewrite lookup_seq_lt. }
  apply mapM_Ok_inv in Hl.
  destruct (Forall2_lookup_l _ _ _ j j Hl) as (c & Hc & Hd).
  { by rewrite lookup_seq_lt. }
  exists c. split.
  - unfold entrada. by rewrite Hlinha.
  - apply getitem_Ok in Ha, Hb. by rewrite Ha, Hb in Hd.
Qed.

Lemma dist_matrix_Raise (pontos : list ponto) (e : excecao) :
  dist_matrix pontos = Raise e -> erro_de_conversao e.
Proof.
  intros (i & Hi & Hl)%mapM_Raise_inv.
  apply mapM_Raise_inv in Hl as (j & Hj & Hd).
  apply elem_of_seq in Hi, Hj.
  destruct (lookup_lt_is_Some_2 pontos i) as [a Ha]; [lia|].
  destruct (lookup_lt_is_Some_2 pontos j) as [b Hb]; [lia|].
  apply getitem_Ok in Ha, Hb. rewrite Ha, Hb in Hd.
  by apply int_Raise in Hd as [_ ?].
Qed.

Lemma dist_matrix_raises (pontos : list ponto) (i j : nat) (a b : ponto) (e : excecao) :
  pontos !! i = Some a -> pontos !! j = Some b ->
  distancia_euclidiana a b = Raise e ->
  exists e', dist_matrix pontos = Raise e'.
Proof.
  intros Ha Hb Hd.
  assert (i < length pontos)%nat as Hi by (by eapply lookup_lt_Some).
  assert (j < length pontos)%nat as Hj by (by eapply lookup_lt_Some).
  assert (exists e', mapM (fun j =>
            a ← getitem pontos i; b ← getitem pontos j; distancia_euclidiana a b)
            (seq 0 (length pontos)) = Raise e') as [e' He'].
  { apply (mapM_raises _ _ j e); [apply elem_of_seq; lia|].
    apply getitem_Ok in Ha, Hb. by rewrite Ha, Hb. }
  eapply (mapM_raises _ _ i); [apply elem_of_seq; lia|exact He'].
Qed.

(** The distance does not depend on the order of the two points, error or
    not. *)
Lemma distancia_euclidiana_sym `{!HypotLaws} (a b : ponto) :
  distancia_euclidiana a b = distancia_euclidiana b a.
Proof.
  unfold distancia_euclidiana.
  rewrite (hypot_abs (a.1 - b.1)), (hypot_abs (b.1 - a.1)).
  by rewrite (abs_sub_sym a.1 b.1), (abs_sub_sym a.2 b.2).
Qed.

Lemma distancia_euclidiana_diag `{!HypotLaws} (a : ponto) :
  isfinite a.1 = true -> isfinite a.2 = true -> distancia_euclidiana a a = Ok 0.
Proof.
  intros H1 H2. unfold distancia_euclidiana.
  rewrite (sub_diag _ H1), (sub_diag _ H2), hypot_zero. by vm_compute.
Qed.

(** A NaN or an infinity among the four coordinates makes [int] fail. *)
Lemma distancia_euclidiana_nao_finito `{!HypotLaws} (a b : ponto) :
  isfinite a.1 && isfinite a.2 && isfinite b.1 && isfinite b.2 = false ->
  exists e, distancia_euclidiana a b = Raise e /\ erro_de_conversao e.
Proof.
  intros Hab. unfold distancia_euclidiana.
  apply int_nao_finito, isfinite_mul_1000, hypot_nao_finito.
  apply andb_false_iff.
  destruct (isfinite a.1) eqn:Ha1; [|left; by apply isfinite_sub; rewrite Ha1].
  destruct (isfinite a.2) eqn:Ha2;
    [|right; by apply isfinite_sub; rewrite Ha2].
  destruct (isfinite b.1) eqn:Hb1;
    [|left; apply isfinite_sub; rewrite Hb1; by destruct (isfinite a.1)].
  right. apply isfinite_sub. simpl in Hab. rewrite Hab.
  by destruct (isfinite a.2).
Qed.

(** The points of a matrix that is built have finite coordinates. *)
Lemma dist_matrix_finito `{!HypotLaws} (pontos : list ponto) (m : list (list Z))
    (i : nat) (p : ponto) :
  dist_matrix pontos = Ok m -> pontos !! i = Some p -> finito p = true.
Proof.
  intros Hm Hp.
  destruct (dist_matrix_entrada pontos m i i p p Hm Hp Hp) as (c & _ & Hc).
  unfold finito. destruct (isfinite p.1 && isfinite p.2) eqn:Hfin; [done|].
  destruct (distancia_euclidiana_nao_finito p p) as (e & He & _);
    [|congruence].
  by rewrite Hfin.
Qed.

End DistanciaFacts.

(** ** Costs are not negative *)

Lemma binary_round_aux_nao_negativo m e l :
  SF_nao_negativo (binary_round_aux prec emax false m e l).
Proof.
  unfold binary_round_aux.
  destruct (shr_fexp prec emax m e l) as [mrs' e'].
  destruct (shr_fexp prec emax _ e' loc_Exact) as [mrs'' e''].
  destruct (shr_m mrs''); try done.
  by destruct (_ <=? _).
Qed.

Lemma negativo_abs (x : float) : negativo (abs x) = false.
Proof. unfold negativo. rewrite abs_spec. by destruct (Prim2SF x). Qed.

Lemma negativo_sqrt (x : float) : negativo (sqrt x) = false.
Proof.
  unfold negativo. rewrite sqrt_spec.
  destruct (Prim2SF x) as [s|[|]| |[|] m e]; try done.
  unfold SF64sqrt, SFsqrt.
  destruct (SFsqrt_core_binary prec emax (Z.pos m) e) as [[mz ez] lz].
  pose proof (binary_round_aux_nao_negativo mz ez lz) as Hnn.
  by destruct (binary_round_aux prec emax false mz ez lz).
Qed.

Lemma hypot_ref_nao_negativo : @HypotNaoNegativo hypot_ref.
Proof.
  intros x y. unfold hypot, hypot_ref.
  repeat match goal with
         | |- context [if ?c then _ else _] => destruct c
         end;
    auto using negativo_abs, negativo_sqrt.
Qed.

(** Scaling by 1000 and cutting at the point keeps a number that is not
    negative so. *)
Lemma int_mul_1000_nao_negativo (x : float) (c : Z) :
  negativo x = false -> int (x * 1000) = Ok c -> 0 <= c.
Proof.
  unfold negativo, int. rewrite mul_spec, Prim2SF_1000.
  destruct (Prim2SF x) as [s|s| |s m e]; simpl; try done.
  - intros _ [= <-]. done.
  - intros -> . simpl.
    pose proof (binary_round_aux_nao_negativo
                  (Z.pos (m * 8796093022208000)) (e + -43) loc_Exact) as Hnn.
    destruct (binary_round_aux prec emax false _ _ _) as [s'|s'| |s' m' e'];
      try done; [by intros [= <-]|].
    simpl in Hnn. subst s'. intros [= <-]. unfold parte_inteira. simpl.
    destruct e' as [|k|k]; try lia.
    + apply Z.shiftl_nonneg. lia.
    + apply Z.shiftr_nonneg. lia.
Qed.

(** No cost is negative. *)
Lemma dist_matrix_nao_negativa `{MathHypot} `{!HypotNaoNegativo}
    (pontos : list ponto) (m : list (list Z)) :
  dist_matrix pontos = Ok m ->
  forall i j c, entrada m i j = Some c -> 0 <= c.
Proof.
  intros Hm i j c Hc. unfold entrada in Hc.
  destruct (m !! i) as [linha|] eqn:Hlinha; [|done]. simpl in Hc.
  destruct (dist_matrix_linhas pontos m Hm) as [Hlm Hrows].
  assert (i < length pontos)%nat as Hi.
  { rewrite <- Hlm. by eapply lookup_lt_Some. }
  assert (j < length pontos)%nat as Hj.
  { rewrite <- (Forall_lookup_1 _ _ _ _ Hrows Hlinha). by eapply lookup_lt_Some. }
  destruct (lookup_lt_is_Some_2 pontos i Hi) as [a Ha].
  destruct (lookup_lt_is_Some_2 pontos j Hj) as [b Hb].
  destruct (dist_matrix_entrada pontos m i j a b Hm Ha Hb) as (c' & Hc' & Hd).
  unfold entrada in Hc'. rewrite Hlinha in Hc'. simpl in Hc'.
  assert (c' = c) as -> by congruence.
  eapply int_mul_1000_nao_negativo; [|exact Hd]. apply hypot_nao_negativo.
Qed.

(** ** The claims on the distance model *)

(** C2 (as amended).  For every ordered pair of points (i, j), the entry of the
    cost matrix is [int(hypot(xi - xj, yi - yj) * 1000)]: the scaled Euclidean
    distance with its fractional part dropped (truncated towards zero), not
    rounded to the nearest integer. *)
Theorem C2_custo_truncado `{MathHypot} (pontos : list ponto) (m : list (list Z))
    (i j : nat) (a b : ponto) :
  dist_matrix pontos = Ok m ->
  pontos !! i = Some a -> pontos !! j = Some b ->
  exists c,
    entrada m i j = Some c /\
    int (hypot (a.1 - b.1) (a.2 - b.2) * 1000)%float = Ok c /\
    truncamento (hypot (a.1 - b.1) (a.2 - b.2) * 1000)%float c.
Proof.
  intros Hm Ha Hb.
  destruct (dist_matrix_entrada pontos m i j a b Hm Ha Hb) as (c & Hc & Hd).
  exists c. repeat split; [done|done|]. by apply int_truncamento.
Qed.

Lemma C2_custo_truncado_witness :
  let a : ponto := (0, 0)%float in
  let b : ponto := (0x1p-10, 0)%float in
  exists c,
    entrada [[0; 0]; [0; 0]] 0 1 = Some c /\
    int (hypot_ref (a.1 - b.1) (a.2 - b.2) * 1000)%float = Ok c /\
    truncamento (hypot_ref (a.1 - b.1) (a.2 - b.2) * 1000)%float c.
Proof.
  apply (@C2_custo_truncado hypot_ref [(0, 0); (0x1p-10, 0)]%float
           [[0; 0]; [0; 0]] 0 1); by vm_compute.
Defined.

(** C2 (as stated) fails: between (0, 0) and (2^-10, 0) the scaled distance
    is 0.9765625, which the code stores as 0 and rounding would store as 1. *)
Lemma C2_counterexample :
  let a : ponto := (0, 0)%float in
  let b : ponto := (0x1p-10, 0)%float in
  @dist_matrix hypot_ref [a; b] = Ok [[0; 0]; [0; 0]] /\
  @custo_arredondado hypot_ref a b = Ok 1 /\
  @distancia_euclidiana hypot_ref a b <> @custo_arredondado hypot_ref a b.
Proof. by vm_compute. Qed.

(** C7.  For every list of points with finite coordinates, the cost matrix
    that [otimizar_rota] builds has a zero diagonal, [cost[i][i] = 0], and is
    symmetric, [cost[i][j] = cost[j][i]], every entry being present. *)
Theorem C7_diagonal_e_simetria `{MathHypot} `{!HypotLaws}
    (pontos : list ponto) (m : list (list Z)) :
  Forall (fun p : ponto => isfinite p.1 = true /\ isfinite p.2 = true) pontos ->
  dist_matrix pontos = Ok m ->
  (forall i, (i < length pontos)%nat -> entrada m i i = Some 0) /\
  (forall i j, (i < length pontos)%nat -> (j < length pontos)%nat ->
     is_Some (entrada m i j) /\ entrada m i j = entrada m j i).
Proof.
  intros Hfin Hm. split.
  - intros i Hi.
    destruct (lookup_lt_is_Some_2 pontos i Hi) as [a Ha].
    destruct (dist_matrix_entrada pontos m i i a a Hm Ha Ha) as (c & Hc & Hd).
    destruct (Forall_lookup_1 _ _ _ _ Hfin Ha) as [H1 H2].
    rewrite (distancia_euclidiana_diag a H1 H2) in Hd. congruence.
  - intros i j Hi Hj.
    destruct (lookup_lt_is_Some_2 pontos i Hi) as [a Ha].
    destruct (lookup_lt_is_Some_2 pontos j Hj) as [b Hb].
    destruct (dist_matrix_entrada pontos m i j a b Hm Ha Hb) as (c & Hc & Hd).
    destruct (dist_matrix_entrada pontos m j i b a Hm Hb Ha) as (c' & Hc' & Hd').
    rewrite (distancia_euclidiana_sym a b) in Hd.
    split; [by exists c|]. congruence.
Qed.

Lemma C7_diagonal_e_simetria_witness :
  let m := [[0; 1000; 3000]; [1000; 0; 2000]; [3000; 2000; 0]] in
  (forall i, (i < 3)%nat -> entrada m i i = Some 0) /\
  (forall i j, (i < 3)%nat -> (j < 3)%nat ->
     is_Some (entrada m i j) /\ entrada m i j = entrada m j i).
Proof.
  apply (@C7_diagonal_e_simetria hypot_ref hypot_ref_laws
           [(0, 0); (1, 0); (3, 0)]%float).
  - repeat constructor.
  - by vm_compute.
Defined.

(** Finite coordinates do not make the matrix: when a difference of two of
    them overflows, [int] stops at the infinity. *)
Example dist_matrix_overflow :
  isfinite 0x1p1023 = true /\
  @dist_matrix hypot_ref [(0x1p1023, 0); (-0x1p1023, 0)]%float
  = Raise (OverflowError msg_int_inf).
Proof. by vm_compute. Qed.

(** ** The routing model and the extraction loop *)

Section Extracao.
Context (manager : RoutingIndexManager) (routing : RoutingModel)
  (solution : Assignment).
Context (Hrouting : manager_of routing = manager) (Hdepot : depot manager = 0%nat).
Local Abbreviation n := (num_nodes manager).

Lemma IsEnd_lt (i : nat) : (i < n)%nat -> IsEnd routing i = false.
Proof. unfold IsEnd. rewrite Hrouting. intros. by apply Nat.leb_gt. Qed.

Lemma IsEnd_num_nodes : IsEnd routing n = true.
Proof. unfold IsEnd. rewrite Hrouting. by apply Nat.leb_le. Qed.

Lemma IndexToNode_lt (i : nat) : (i < n)%nat -> IndexToNode manager i = i.
Proof. unfold IndexToNode. intros Hi. by apply Nat.ltb_lt in Hi as ->. Qed.

Lemma IndexToNode_num_nodes : IndexToNode manager n = 0%nat.
Proof. unfold IndexToNode. by rewrite Nat.ltb_irrefl. Qed.

(** Along a chain that reaches the end index, the loop lists the chain and
    closes it with the depot. *)
Lemma extrair_sequencia_segue (resto : list nat) :
  forall (i : nat) (acc : list nat) (fuel : nat),
    (i < n)%nat -> Forall (fun j => (j < n)%nat) resto ->
    segue (Value_NextVar solution) i resto n ->
    (length resto + 2 <= fuel)%nat ->
    extrair_sequencia fuel manager routing solution i acc
    = Some (acc ++ i :: resto ++ [0%nat]).
Proof.
  induction resto as [|j resto IH]; intros i acc fuel Hi Hresto Hsegue Hfuel;
    simpl in Hsegue, Hfuel.
  - destruct fuel as [|[|fuel]]; try lia. simpl.
    rewrite (IsEnd_lt i Hi), Hsegue, IsEnd_num_nodes.
    rewrite (IndexToNode_lt i Hi), IndexToNode_num_nodes.
    by rewrite <- app_assoc.
  - destruct fuel as [|fuel]; [lia|]. simpl.
    destruct Hsegue as [-> Hsegue]. apply Forall_cons in Hresto as [Hj Hresto].
    rewrite (IsEnd_lt i Hi), (IndexToNode_lt i Hi).
    rewrite (IH j (acc ++ [i]) fuel Hj Hresto Hsegue) by lia.
    by rewrite <- app_assoc.
Qed.

(** More fuel does not change what the loop returns. *)
Lemma extrair_sequencia_mono (fuel k : nat) :
  forall (i : nat) (acc s : list nat),
    extrair_sequencia fuel manager routing solution i acc = Some s ->
    extrair_sequencia (fuel + k) manager routing solution i acc = Some s.
Proof.
  induction fuel as [|fuel IH]; intros i acc s; simpl; [done|].
  destruct (IsEnd routing i); [done|]. apply IH.
Qed.

End Extracao.

(** A walk over a callback that never fails has a cost. *)
Lemma custo_arcos_Ok (custo : nat -> nat -> resultado Z) (resto : list nat) :
  forall i : nat,
    (forall i j, exists c, custo i j = Ok c) ->
    exists total, custo_arcos custo i resto = Ok total.
Proof.
  induction resto as [|j resto IH]; intros i Hcusto; simpl; [eauto|].
  destruct (Hcusto i j) as [c ->]. destruct (IH j Hcusto) as [t ->].
  simpl. eauto.
Qed.

(** A sum of costs that are not negative is not negative. *)
Lemma custo_arcos_nao_negativo (custo : nat -> nat -> resultado Z)
    (resto : list nat) :
  forall (i : nat) (total : Z),
    (forall i j c, custo i j = Ok c -> 0 <= c) ->
    custo_arcos custo i resto = Ok total -> 0 <= total.
Proof.
  induction resto as [|j resto IH]; intros i total Hpos; simpl.
  - by intros [= <-].
  - intros (c & Hc & Ht)%bind_Ok_inv.
    apply bind_Ok_inv in Ht as (t & Ht & [= <-]).
    pose proof (Hpos i j c Hc). pose proof (IH j t Hpos Ht). lia.
Qed.

Section Callback.
Context (m : list (list Z)).
Local Abbreviation n := (length m).
Local Abbreviation manager := (manager_of (modelo_de m)).
Local Abbreviation distance_callback := (arc_cost (modelo_de m)).

Lemma IndexToNode_bound (i : nat) :
  (1 <= n)%nat -> (IndexToNode manager i < n)%nat.
Proof. unfold IndexToNode. simpl. destruct (Nat.ltb_spec i n); lia. Qed.

Lemma IndexToNode_fim : IndexToNode manager n = 0%nat.
Proof. exact (IndexToNode_num_nodes manager eq_refl). Qed.

(** On a square matrix the callback never fails. *)
Lemma distance_callback_Ok (i j : nat) :
  (1 <= n)%nat -> Forall (fun linha => length linha = n) m ->
  exists c, distance_callback i j = Ok c.
Proof.
  intros Hn Hm.
  pose proof (IndexToNode_bound i Hn) as Hi.
  pose proof (IndexToNode_bound j Hn) as Hj.
  change (distance_callback i j)
    with (linha ← getitem m (IndexToNode manager i);
          getitem linha (IndexToNode manager j)).
  destruct (lookup_lt_is_Some_2 m _ Hi) as [linha Hl].
  rewrite (proj2 (getitem_Ok _ _ _) Hl). simpl.
  destruct (lookup_lt_is_Some_2 linha (IndexToNode manager j)) as [c Hc].
  { by rewrite (Forall_lookup_1 _ _ _ _ Hm Hl). }
  exists c. by apply getitem_Ok.
Qed.

Lemma distance_callback_entrada (i j : nat) (c : Z) :
  distance_callback i j = Ok c -> exists i' j', entrada m i' j' = Some c.
Proof.
  change (distance_callback i j)
    with (linha ← getitem m (IndexToNode manager i);
          getitem linha (IndexToNode manager j)).
  intros (linha & Hl%getitem_Ok & Hc%getitem_Ok)%bind_Ok_inv.
  exists (IndexToNode manager i), (IndexToNode manager j).
  unfold entrada. by rewrite Hl.
Qed.

Lemma distance_callback_lt (i j : nat) :
  (i < n)%nat ->
  distance_callback i j
  = linha ← getitem m i; getitem linha (IndexToNode manager j).
Proof.
  intros Hi.
  change (distance_callback i j)
    with (linha ← getitem m (IndexToNode manager i);
          getitem linha (IndexToNode manager j)).
  by rewrite (IndexToNode_lt manager i Hi).
Qed.

(** The arc costs along a chain of indices are the matrix costs along the
    tour it describes. *)
Lemma custo_arcos_percurso (resto : list nat) :
  forall i : nat,
    (i < n)%nat -> Forall (fun j => (j < n)%nat) resto ->
    custo_arcos distance_callback i (resto ++ [n])
    = custo_percurso m (i :: resto ++ [0%nat]).
Proof.
  induction resto as [|j resto IH]; intros i Hi Hresto.
  - change (custo_arcos distance_callback i ([] ++ [n]))
      with (c ← distance_callback i n; t ← Ok 0; Ok (c + t)).
    change (custo_percurso m (i :: [] ++ [0%nat]))
      with (linha ← getitem m i; c ← getitem linha 0%nat; t ← Ok 0; Ok (c + t)).
    rewrite (distance_callback_lt i n Hi).
    rewrite IndexToNode_fim.
    by destruct (getitem m i) as [linha|].
  - apply Forall_cons in Hresto as [Hj Hresto].
    change (custo_arcos distance_callback i ((j :: resto) ++ [n]))
      with (c ← distance_callback i j;
            t ← custo_arcos distance_callback j (resto ++ [n]); Ok (c + t)).
    rewrite (IH j Hj Hresto).
    change (custo_percurso m (i :: (j :: resto) ++ [0%nat]))
      with (linha ← getitem m i; c ← getitem linha j;
            t ← custo_percurso m (j :: resto ++ [0%nat]); Ok (c + t)).
    rewrite (distance_callback_lt i j Hi), (IndexToNode_lt manager j Hj).
    by destruct (getitem m i) as [linha|].
Qed.

End Callback.

Section OtimizarFacts.
Context `{MathHypot} `{Solver}.

Lemma otimizar_rota_poucos (fuel : nat) (pontos : list ponto) :
  (length pontos < 2)%nat -> otimizar_rota fuel pontos = Some (Raise InvalidInput).
Proof.
  intros Hlen. unfold otimizar_rota.
  by apply Nat.ltb_lt in Hlen as ->.
Qed.

Lemma otimizar_rota_matriz_Raise (fuel : nat) (pontos : list ponto) (e : excecao) :
  (2 <= length pontos)%nat -> dist_matrix pontos = Raise e ->
  otimizar_rota fuel pontos = Some (Raise e).
Proof.
  intros Hlen Hm. unfold otimizar_rota.
  apply Nat.ltb_ge in Hlen as ->. by rewrite Hm.
Qed.

Lemma otimizar_rota_eq (fuel : nat) (pontos : list ponto) (m : list (list Z)) :
  (2 <= length pontos)%nat -> dist_matrix pontos = Ok m ->
  otimizar_rota fuel pontos =
  match retorno (busca_de m) with
  | None => Some (Raise (RuntimeError msg_sem_solucao))
  | Some solution =>
      match extrair_sequencia fuel (manager_of (modelo_de m)) (modelo_de m)
              solution 0 [] with
      | None => None
      | Some sequencia =>
          Some (distancia ← int_truediv (ObjectiveValue solution) 1000;
                Ok (sequencia, distancia))
      end
  end.
Proof.
  intros Hlen Hm. unfold otimizar_rota.
  apply Nat.ltb_ge in Hlen as ->. by rewrite Hm.
Qed.

Context `{!SolverContract}.

(** What the contract gives for the search of [otimizar_rota]. *)
Lemma busca_de_rota (pontos : list ponto) (m : list (list Z)) (solution : Assignment) :
  (2 <= length pontos)%nat -> dist_matrix pontos = Ok m ->
  retorno (busca_de m) = Some solution ->
  int64_min <= ObjectiveValue solution <= int64_max /\
  exists resto,
    resto ≡ₚ seq 1 (length pontos - 1) /\
    segue (Value_NextVar solution) 0 resto (length pontos) /\
    exists total,
      custo_percurso m (0%nat :: resto ++ [0%nat]) = Ok total /\
      ((forall i j c, entrada m i j = Some c -> 0 <= c) ->
       total < int64_max -> ObjectiveValue solution = total).
Proof.
  intros Hlen Hm Hsol.
  destruct (dist_matrix_linhas pontos m Hm) as [Hlm Hrows].
  destruct (solver_rota (modelo_de m)
              {| first_solution_strategy := PATH_CHEAPEST_ARC;
                 time_limit_seconds := Some 30 |} solution)
    as (Hint & resto & Hperm & Hseg & Hcost);
    [simpl; lia|done|done| |exact Hsol|].
  { intros i j _ _. apply distance_callback_Ok; rewrite Hlm; [lia|done]. }
  split; [done|].
  simpl in Hperm, Hseg, Hcost. rewrite Hlm in Hperm, Hseg.
  assert (resto ≡ₚ seq 1 (length pontos - 1)) as Hresto.
  { apply (Permutation_cons_inv (a := 0%nat)). rewrite Hperm.
    destruct (length pontos) as [|k]; [lia|]. simpl. by rewrite Nat.sub_0_r. }
  exists resto. split; [done|]. split; [done|].
  assert (Forall (fun j => (j < length m)%nat) resto) as Hlt.
  { apply Forall_forall. intros j Hj. rewrite Hresto in Hj.
    apply elem_of_seq in Hj. lia. }
  rewrite <- (custo_arcos_percurso m resto 0); [|rewrite Hlm; lia|done].
  destruct (custo_arcos_Ok (arc_cost (modelo_de m)) (resto ++ [length m]) 0)
    as [total Htotal].
  { intros i j. apply distance_callback_Ok; rewrite Hlm; [lia|done]. }
  exists total. split; [done|]. intros Hpos Hmax.
  apply Hcost; [done| |done].
  intros i j c Hc. by apply (distance_callback_entrada m i j c) in Hc as (? & ? & ?%Hpos).
Qed.

End OtimizarFacts.


(** ** The solver that visits in the order given meets the contract *)

Lemma segue_S (k i : nat) : segue S i (seq (S i) k) (S i + k).
Proof.
  revert i. induction k as [|k IH]; intros i; simpl; [lia|].
  split; [done|]. rewrite <- Nat.add_succ_comm. apply IH.
Qed.

Lemma busca_na_ordem_rota (routing : RoutingModel) (solution : Assignment) :
  let n := num_nodes (manager_of routing) in
  (1 <= n)%nat ->
  busca_na_ordem routing = Some solution ->
  int64_min <= ObjectiveValue solution <= int64_max /\
  exists resto,
    (0%nat :: resto) ≡ₚ seq 0 n /\
    segue (Value_NextVar solution) 0 resto n /\
    forall total,
      custo_arcos (arc_cost routing) 0 (resto ++ [n]) = Ok total ->
      (forall i j c, arc_cost routing i j = Ok c -> 0 <= c) ->
      total < int64_max ->
      ObjectiveValue solution = total.
Proof.
  intros n Hn. unfold busca_na_ordem. fold n.
  destruct n as [|k]; [lia|].
  destruct (custo_arcos (arc_cost routing) 0 (seq 1 (S k))) as [c|] eqn:Hc; [|done].
  intros [= <-]. cbn [ObjectiveValue Value_NextVar]. split.
  - unfold int64_min, int64_max. lia.
  - exists (seq 1 k). split; [done|]. split; [apply (segue_S k 0)|].
    intros total Htotal Hpos Hmax.
    rewrite seq_S in Hc. simpl in Hc, Htotal. rewrite Htotal in Hc.
    injection Hc as <-.
    pose proof (custo_arcos_nao_negativo _ _ _ _ Hpos Htotal).
    unfold int64_min, int64_max in *. lia.
Qed.

#[global] Instance solver_na_ordem_contract : @SolverContract solver_na_ordem.
Proof. intros routing ? solution n Hn _ _ _. by apply busca_na_ordem_rota. Qed.

#[global] Instance solver_interrompido_contract : @SolverContract solver_interrompido.
Proof. intros routing ? solution n Hn _ _ _. by apply busca_na_ordem_rota. Qed.

#[global] Instance solver_sem_solucao_contract : @SolverContract solver_sem_solucao.
Proof. intros routing ? solution n Hn _ _ _. done. Qed.

(** ** The claims on [otimizar_rota] *)

Section OtimizarClaims.
Context `{MathHypot} `{Solver}.

(** C4.  For every input list with fewer than 2 points (N = 0 or N = 1),
    [otimizar_rota] rejects the input with the [InvalidInput] error, the
    [ValueError] of its guard, and produces no tour. *)
Theorem C4_menos_de_dois_pontos (fuel : nat) (pontos : list ponto) :
  (length pontos < 2)%nat ->
  otimizar_rota fuel pontos = Some (Raise InvalidInput) /\
  forall sequencia distancia,
    otimizar_rota fuel pontos <> Some (Ok (sequencia, distancia)).
Proof.
  intros Hlen. rewrite (otimizar_rota_poucos fuel pontos Hlen). by split.
Qed.

(** C5 (as amended).  Invoked with exactly one point, the optimizer returns no
    trivial result: it raises [ValueError], the rejection of every list of
    fewer than two points. *)
Theorem C5_um_ponto_rejeitado (fuel : nat) (p : ponto) :
  otimizar_rota fuel [p] = Some (Raise (ValueError msg_poucos_pontos)).
Proof. apply otimizar_rota_poucos. simpl. lia. Qed.

Context `{!HypotLaws}.

(** C6 (as amended).  For every input of at least two points that contains a
    non-finite coordinate (NaN or infinity), [otimizar_rota] fails while it
    builds the matrix with the error of the conversion [int()], [ValueError]
    for a NaN or [OverflowError] for an infinity; this is not the
    [InvalidInput] error of the guard, and no tour is produced. *)
Theorem C6_coordenada_nao_finita (fuel : nat) (pontos : list ponto) :
  (2 <= length pontos)%nat ->
  Exists (fun p : ponto => isfinite p.1 && isfinite p.2 = false) pontos ->
  exists e,
    otimizar_rota fuel pontos = Some (Raise e) /\
    erro_de_conversao e /\ e <> InvalidInput.
Proof.
  intros Hlen (p & [k Hk]%list_elem_of_lookup & Hp)%Exists_exists.
  destruct (distancia_euclidiana_nao_finito p p) as (e0 & He0 & _).
  { by rewrite Hp. }
  destruct (dist_matrix_raises pontos k k p p e0 Hk Hk He0) as [e He].
  exists e. split; [by apply otimizar_rota_matriz_Raise|].
  pose proof (dist_matrix_Raise pontos e He) as Hconv.
  split; [done|]. by destruct Hconv as [-> | ->].
Qed.

Context `{!SolverContract}.

(** The extraction loop ends within N + 1 tests of its condition. *)
Lemma otimizar_rota_termina (fuel : nat) (pontos : list ponto) :
  (2 <= length pontos)%nat -> (length pontos + 1 <= fuel)%nat ->
  otimizar_rota fuel pontos <> None.
Proof.
  intros Hlen Hfuel.
  destruct (dist_matrix pontos) as [m|e] eqn:Hm; cycle 1.
  { by rewrite (otimizar_rota_matriz_Raise fuel pontos e Hlen Hm). }
  rewrite (otimizar_rota_eq fuel pontos m Hlen Hm).
  destruct (retorno (busca_de m)) as [solution|] eqn:Hsol; [|done].
  destruct (busca_de_rota pontos m solution Hlen Hm Hsol)
    as (_ & resto & Hresto & Hseg & _).
  destruct (dist_matrix_linhas pontos m Hm) as [Hlm _].
  rewrite (extrair_sequencia_segue _ (modelo_de m) solution eq_refl eq_refl
             resto 0 []);
    cbn [num_nodes manager_of modelo_de]; rewrite ?Hlm; [done|lia| |done|].
  - apply Forall_forall. intros j Hj. rewrite Hresto in Hj.
    apply elem_of_seq in Hj. lia.
  - rewrite Hresto, length_seq. lia.
Qed.

(** What a successful return tells. *)
Lemma otimizar_rota_Ok_inv (fuel : nat) (pontos : list ponto)
    (sequencia : list nat) (distancia : float) :
  otimizar_rota fuel pontos = Some (Ok (sequencia, distancia)) ->
  exists m solution resto total,
    dist_matrix pontos = Ok m /\
    retorno (busca_de m) = Some solution /\
    resto ≡ₚ seq 1 (length pontos - 1) /\
    sequencia = 0%nat :: resto ++ [0%nat] /\
    custo_percurso m sequencia = Ok total /\
    int_truediv (ObjectiveValue solution) 1000 = Ok distancia /\
    ((forall i j c, entrada m i j = Some c -> 0 <= c) ->
     total < int64_max -> ObjectiveValue solution = total) /\
    int64_min <= ObjectiveValue solution <= int64_max.
Proof.
  intros Hok.
  destruct (Nat.lt_ge_cases (length pontos) 2) as [Hlt|Hlen].
  { by rewrite (otimizar_rota_poucos fuel pontos Hlt) in Hok. }
  destruct (dist_matrix pontos) as [m|e] eqn:Hm; cycle 1.
  { by rewrite (otimizar_rota_matriz_Raise fuel pontos e Hlen Hm) in Hok. }
  rewrite (otimizar_rota_eq fuel pontos m Hlen Hm) in Hok.
  destruct (retorno (busca_de m)) as [solution|] eqn:Hsol; [|done].
  destruct (busca_de_rota pontos m solution Hlen Hm Hsol)
    as (Hint & resto & Hresto & Hseg & total & Htotal & Hobj).
  destruct (dist_matrix_linhas pontos m Hm) as [Hlm _].
  destruct (extrair_sequencia fuel _ _ _ _ _) as [s|] eqn:Hs; [|done].
  destruct (int_truediv (ObjectiveValue solution) 1000) as [d|] eqn:Hd; [|done].
  injection Hok as -> <-.
  apply (extrair_sequencia_mono _ _ _ fuel (length pontos + 1)) in Hs.
  rewrite (extrair_sequencia_segue _ (modelo_de m) solution eq_refl eq_refl
             resto 0 []) in Hs;
    cbn [num_nodes manager_of modelo_de]; rewrite ?Hlm; [|lia| |done|].
  - injection Hs as <-. by exists m, solution, resto, total.
  - apply Forall_forall. intros j Hj. rewrite Hresto in Hj.
    apply elem_of_seq in Hj. lia.
  - rewrite Hresto, length_seq. lia.
Qed.

(** C1.  For every input list of at least 2 points, the extraction loop of
    [otimizar_rota] ends (N + 1 tests of its condition are enough), and
    whenever [otimizar_rota] returns successfully the returned
    [sequencia_otimizada] has length N + 1, starts and ends with node 0, and
    lists in between every index 1..N-1 exactly once. *)
Theorem C1_tour_permutacao (pontos : list ponto) :
  (2 <= length pontos)%nat ->
  let N := length pontos in
  (forall fuel, (N + 1 <= fuel)%nat -> otimizar_rota fuel pontos <> None) /\
  (forall fuel sequencia distancia,
     otimizar_rota fuel pontos = Some (Ok (sequencia, distancia)) ->
     length sequencia = (N + 1)%nat /\
     head sequencia = Some 0%nat /\
     last sequencia = Some 0%nat /\
     exists meio,
       sequencia = 0%nat :: meio ++ [0%nat] /\ meio ≡ₚ seq 1 (N - 1)).
Proof.
  intros Hlen N. split.
  - intros fuel Hfuel. by apply otimizar_rota_termina.
  - intros fuel sequencia distancia Hok.
    destruct (otimizar_rota_Ok_inv _ _ _ _ Hok)
      as (m & solution & resto & total & _ & _ & Hresto & -> & _).
    repeat split.
    + simpl. rewrite length_app, Hresto, length_seq. simpl. lia.
    + by rewrite last_cons, last_snoc.
    + by exists resto.
Qed.


End OtimizarClaims.

Lemma C1_tour_permutacao_witness :
  length [0; 1; 0]%nat = 3%nat /\
  head [0; 1; 0]%nat = Some 0%nat /\
  last [0; 1; 0]%nat = Some 0%nat /\
  exists meio, [0; 1; 0]%nat = 0%nat :: meio ++ [0%nat] /\ meio ≡ₚ seq 1 1.
Proof.
  apply (proj2 (@C1_tour_permutacao hypot_ref solver_na_ordem
                  solver_na_ordem_contract dois_pontos ltac:(simpl; lia))
           3%nat [0; 1; 0]%nat 2%float).
  by vm_compute.
Defined.



Lemma C4_menos_de_dois_pontos_witness :
  @otimizar_rota hypot_ref solver_na_ordem 3 [(0, 0)%float]
    = Some (Raise InvalidInput) /\
  forall sequencia distancia,
    @otimizar_rota hypot_ref solver_na_ordem 3 [(0, 0)%float]
    <> Some (Ok (sequencia, distancia)).
Proof.
  apply (@C4_menos_de_dois_pontos hypot_ref solver_na_ordem 3 [(0, 0)%float]).
  simpl. lia.
Defined.

(** C5 (as stated) fails: with the single point (0, 0) the call returns no
    tour [0, 0] of cost 0; it raises. *)
Lemma C5_counterexample :
  @otimizar_rota hypot_ref solver_na_ordem 3 [(0, 0)%float]
    = Some (Raise (ValueError msg_poucos_pontos)) /\
  @otimizar_rota hypot_ref solver_na_ordem 3 [(0, 0)%float]
    <> Some (Ok ([0; 0]%nat, 0%float)).
Proof. by vm_compute. Qed.

Lemma C6_coordenada_nao_finita_witness :
  exists e,
    @otimizar_rota hypot_ref solver_na_ordem 3 [(0, 0); (infinity, 0)]%float
      = Some (Raise e) /\
    erro_de_conversao e /\ e <> InvalidInput.
Proof.
  apply (@C6_coordenada_nao_finita hypot_ref solver_na_ordem hypot_ref_laws
           3 [(0, 0); (infinity, 0)]%float).
  - simpl. lia.
  - right. left. by vm_compute.
Defined.

(** C6 (as stated) fails: an infinite coordinate ends the call with the
    [OverflowError] of [int()], and a NaN with its [ValueError]; neither is
    the [InvalidInput] error. *)
Lemma C6_counterexample :
  @otimizar_rota hypot_ref solver_na_ordem 3 [(0, 0); (infinity, 0)]%float
    = Some (Raise (OverflowError msg_int_inf)) /\
  @otimizar_rota hypot_ref solver_na_ordem 3 [(nan, 0); (0, 0)]%float
    = Some (Raise (ValueError msg_int_nan)) /\
  OverflowError msg_int_inf <> InvalidInput /\
  ValueError msg_int_nan <> InvalidInput.
Proof. by vm_compute. Qed.

(** C8 (as amended).  When the time limit expires the result does not tell:
    if the search delivers no solution, [otimizar_rota] raises [RuntimeError];
    if it delivers one, [otimizar_rota] returns the pair it returns for a
    search that ends on its own with that solution, so the result carries no
    convergence flag. *)
Theorem C8_limite_de_tempo {hyp : MathHypot} {solver : Solver} (fuel : nat)
    (pontos : list ponto) (m : list (list Z)) :
  (2 <= length pontos)%nat ->
  @dist_matrix hyp pontos = Ok m ->
  tempo_esgotado (@busca_de solver m) = true ->
  (retorno (@busca_de solver m) = None ->
   @otimizar_rota hyp solver fuel pontos
   = Some (Raise (RuntimeError msg_sem_solucao))) /\
  (forall outro : Solver,
     tempo_esgotado (@busca_de outro m) = false ->
     retorno (@busca_de outro m) = retorno (@busca_de solver m) ->
     @otimizar_rota hyp outro fuel pontos = @otimizar_rota hyp solver fuel pontos).
Proof.
  intros Hlen Hm _. split.
  - intros Hnone.
    by rewrite (@otimizar_rota_eq hyp solver fuel pontos m Hlen Hm), Hnone.
  - intros outro _ Hret.
    rewrite (@otimizar_rota_eq hyp solver fuel pontos m Hlen Hm).
    rewrite (@otimizar_rota_eq hyp outro fuel pontos m Hlen Hm).
    by rewrite Hret.
Qed.

Lemma C8_limite_de_tempo_witness :
  (retorno (@busca_de solver_interrompido matriz_dois_pontos) = None ->
   @otimizar_rota hypot_ref solver_interrompido 3 dois_pontos
   = Some (Raise (RuntimeError msg_sem_solucao))) /\
  (forall outro : Solver,
     tempo_esgotado (@busca_de outro matriz_dois_pontos) = false ->
     retorno (@busca_de outro matriz_dois_pontos)
     = retorno (@busca_de solver_interrompido matriz_dois_pontos) ->
     @otimizar_rota hypot_ref outro 3 dois_pontos
     = @otimizar_rota hypot_ref solver_interrompido 3 dois_pontos).
Proof.
  apply (@C8_limite_de_tempo hypot_ref solver_interrompido 3 dois_pontos
           matriz_dois_pontos).
  - simpl. lia.
  - by vm_compute.
  - reflexivity.
Defined.

(** C8 (as stated) fails twice on the points (0, 0) and (1, 0): a search
    that the time limit cuts before any solution ends the call with
    [RuntimeError], and a search that the time limit cuts after its
    solution gives the very result of the search that was not cut. *)
Lemma C8_counterexample :
  (tempo_esgotado (@busca_de solver_sem_solucao matriz_dois_pontos) = true /\
   @otimizar_rota hypot_ref solver_sem_solucao 3 dois_pontos
   = Some (Raise (RuntimeError msg_sem_solucao))) /\
  (tempo_esgotado (@busca_de solver_interrompido matriz_dois_pontos) = true /\
   tempo_esgotado (@busca_de solver_na_ordem matriz_dois_pontos) = false /\
   @otimizar_rota hypot_ref solver_interrompido 3 dois_pontos
   = Some (Ok ([0; 1; 0]%nat, 2%float)) /\
   @otimizar_rota hypot_ref solver_na_ordem 3 dois_pontos
   = Some (Ok ([0; 1; 0]%nat, 2%float))).
Proof. repeat split; by vm_compute. Qed.

(** ** The claim on [obter_rota_real] *)

(** C9 (as amended).  A failure while obtaining the real road route, be it
    an [ApiError] or any other [Exception], is caught inside
    [obter_rota_real]: the function prints one line that ends with the text
    of the error and returns [None], so the caller receives no error. *)
Theorem C9_erro_vira_None `{OpenRouteService} (api_key : string)
    (pontos : list ponto) (profile : string) (e : excecao) :
  (cliente ← Client api_key;
   directions cliente pontos profile "geojson" true false) = Raise e ->
  is_Exception e = true ->
  (obter_rota_real api_key pontos profile).2 = Ok None /\
  exists prefixo, (obter_rota_real api_key pontos profile).1 = [prefixo +:+ str e].
Proof.
  intros He Hexc. unfold obter_rota_real. rewrite He.
  destruct (is_ApiError e); [split; eauto|].
  rewrite Hexc. split; eauto.
Qed.

Lemma C9_erro_vira_None_witness :
  (@obter_rota_real (ors_constante (Raise (ApiError "403 Forbidden")))
     "chave" dois_pontos "driving-car").2 = Ok None /\
  exists prefixo,
    (@obter_rota_real (ors_constante (Raise (ApiError "403 Forbidden")))
       "chave" dois_pontos "driving-car").1
    = [prefixo +:+ str (ApiError "403 Forbidden")].
Proof.
  apply (@C9_erro_vira_None (ors_constante (Raise (ApiError "403 Forbidden")))
           "chave" dois_pontos "driving-car" (ApiError "403 Forbidden"));
    reflexivity.
Defined.

(** C9 (as stated) fails: when the service answers with an [ApiError], and
    when the request times out, the caller gets a bare [None]. *)
Lemma C9_counterexample :
  @obter_rota_real (ors_constante (Raise (ApiError "403 Forbidden")))
    "chave" dois_pontos "driving-car"
  = (["Erro na API OpenRouteService: 403 Forbidden"], Ok None) /\
  @obter_rota_real (ors_constante (Raise (OutraException "timed out")))
    "chave" dois_pontos "driving-car"
  = (["Erro ao obter rota real: timed out"], Ok None).
Proof. by vm_compute. Qed.

(** ** The claim on [calcular_estatisticas_rota] *)

(** C10.  [calcular_estatisticas_rota] guards its real-route branch by key
    membership only: for every [caminhos] that is a dict holding the key
    'features' with an empty list, the call raises [IndexError] at
    [caminhos['features'][0]]; with [None], or a dict without the key, it
    falls back to the Euclidean statistics. *)
Theorem C10_features_vazio `{MathHypot} (pontos : list ponto)
    (sequencia : list nat) :
  (forall d : dict,
     d !! "features" = Some (VList []) ->
     calcular_estatisticas_rota pontos sequencia (Some d)
     = Raise (IndexError "list index out of range")) /\
  calcular_estatisticas_rota pontos sequencia None
  = estatisticas_euclidianas pontos sequencia /\
  (forall d : dict,
     d !! "features" = None ->
     calcular_estatisticas_rota pontos sequencia (Some d)
     = estatisticas_euclidianas pontos sequencia).
Proof.
  unfold calcular_estatisticas_rota, tem_features. repeat split.
  - intros d Hd.
    assert (size d ≠ 0%nat) as Hsize.
    { intros ->%map_size_empty_iff. by rewrite lookup_empty in Hd. }
    apply Nat.eqb_neq in Hsize as ->. simpl.
    rewrite bool_decide_eq_true_2 by (by rewrite Hd).
    simpl. by rewrite Hd.
  - intros d Hd.
    rewrite (bool_decide_eq_false_2 (is_Some (d !! "features")))
      by (rewrite Hd; by intros [? ?]).
    by rewrite andb_false_r.
Qed.

Lemma C10_features_vazio_witness :
  @calcular_estatisticas_rota hypot_ref dois_pontos [0; 1; 0]%nat
    (Some {[ "features" := VList [] ]})
  = Raise (IndexError "list index out of range").
Proof.
  apply (proj1 (@C10_features_vazio hypot_ref dois_pontos [0; 1; 0]%nat)).
  reflexivity.
Defined.

(** ** The map *)

Lemma bind_assoc_resultado {A B C} (r : resultado A) (f : A -> resultado B)
    (g : B -> resultado C) :
  (r ≫= f) ≫= g = r ≫= (fun a => f a ≫= g).
Proof. by destruct r. Qed.

Lemma foldl_add_to (es : list folium.Elemento) (mapa : folium.Map) :
  foldl (fun m e => folium.add_to e m) mapa es
  = {| folium.location := folium.location mapa;
       folium.zoom_start := folium.zoom_start mapa;
       folium.control_scale := folium.control_scale mapa;
       folium.tiles := folium.tiles mapa;
       folium.children := folium.children mapa ++ es |}.
Proof.
  revert mapa. induction es as [|e es IH]; intros mapa; simpl.
  - rewrite app_nil_r. by destruct mapa.
  - rewrite IH. simpl. by rewrite <- app_assoc.
Qed.

(** The loop that adds one element per index is a comprehension. *)
Lemma para_cada_add_to (f : nat -> resultado folium.Elemento) (n : nat) :
  forall (k : nat) (mapa : folium.Map),
    para_cada (fun i mapa => m ← f i; Ok (folium.add_to m mapa)) k n mapa
    = ms ← mapM f (seq k n); Ok (foldl (fun m e => folium.add_to e m) mapa ms).
Proof.
  induction n as [|n IH]; intros k mapa; simpl; [done|].
  destruct (f k) as [m|e]; simpl; [|done].
  rewrite IH. by destruct (mapM f (seq (S k) n)).
Qed.

Lemma mapM_all_Ok {A B} (f : A -> resultado B) (l : list A) :
  (forall x, x ∈ l -> exists y, f x = Ok y) -> exists r, mapM f l = Ok r.
Proof.
  induction l as [|x l IH]; intros Hl; simpl; [eauto|].
  destruct (Hl x) as [y ->]; [left|]. simpl.
  destruct IH as [r ->]; [intros; apply Hl; by right|]. simpl. eauto.
Qed.

Lemma cor_e_icone_casos (i n : nat) :
  (i = 0%nat /\ cor_e_icone i n = ("green", "play")) \/
  ((0 < i)%nat /\ i = (n - 1)%nat /\ cor_e_icone i n = ("red", "stop")) \/
  ((0 < i)%nat /\ i <> (n - 1)%nat /\ cor_e_icone i n = ("blue", "info-sign")).
Proof.
  unfold cor_e_icone.
  destruct (Nat.eqb_spec i 0) as [->|Hi]; [by left|right].
  destruct (Nat.eqb_spec i (n - 1)) as [Hn|Hn]; [left|right]; repeat split; try done; lia.
Qed.

Lemma finito_reversed (p : ponto) : finito (reversed p) = finito p.
Proof. unfold finito, reversed. simpl. by rewrite andb_comm. Qed.

Lemma tem_nan_reversed (p : ponto) : tem_nan (reversed p) = tem_nan p.
Proof. unfold tem_nan, reversed. simpl. by rewrite orb_comm. Qed.

Lemma finito_tem_nan (p : float * float) : finito p = true -> tem_nan p = false.
Proof.
  unfold finito, tem_nan. intros [H1 H2]%andb_true_iff.
  by rewrite (isfinite_is_nan _ H1), (isfinite_is_nan _ H2).
Qed.

Lemma tem_rota_real_None : tem_rota_real None = Ok false.
Proof. done. Qed.

Lemma tem_rota_real_sem_rota (d : dict) :
  d !! "features" = None \/ d !! "features" = Some (VList []) ->
  tem_rota_real (Some d) = Ok false.
Proof.
  unfold tem_rota_real, tem_features. intros [Hd|Hd].
  - rewrite (bool_decide_eq_false_2 (is_Some (d !! "features")))
      by (rewrite Hd; by intros [? ?]).
    by rewrite andb_false_r.
  - destruct (negb _ && _); [|done]. simpl. by rewrite Hd.
Qed.

Lemma tem_rota_real_features (d : dict) (x : valor) (resto : list valor) :
  d !! "features" = Some (VList (x :: resto)) ->
  tem_rota_real (Some d) = Ok true.
Proof.
  intros Hd. unfold tem_rota_real, tem_features.
  assert (size d ≠ 0%nat) as Hsize.
  { intros ->%map_size_empty_iff. by rewrite lookup_empty in Hd. }
  apply Nat.eqb_neq in Hsize as ->.
  rewrite bool_decide_eq_true_2 by (by rewrite Hd).
  simpl. by rewrite Hd.
Qed.

Lemma primeira_feature_Ok (d : dict) (x : valor) (resto : list valor) :
  d !! "features" = Some (VList (x :: resto)) ->
  primeira_feature (Some d) = Ok x.
Proof. intros Hd. unfold primeira_feature. simpl. by rewrite Hd. Qed.

Section MapaFacts.
Context `{folium.Validacao}.

Lemma gerar_mapa_forma (pontos : list ponto) (nomes : list string)
    (sequencia : list nat) (caminhos : option dict) :
  gerar_mapa pontos nomes sequencia caminhos =
  (cm ← centro_e_marcadores pontos nomes sequencia;
   real ← tem_rota_real caminhos;
   linha ← (if real : bool then linha_real caminhos else linha_reta pontos sequencia);
   Ok (mapa_de cm.1 cm.2 linha)).
Proof.
  unfold gerar_mapa, centro_e_marcadores.
  destruct (getitem sequencia 0) as [i0|]; cbn [mbind resultado_bind]; [|done].
  destruct (getitem pontos i0) as [p|]; cbn [mbind resultado_bind]; [|done].
  destruct (folium.validate_location (reversed p)) as [u|];
    cbn [mbind resultado_bind]; [|done].
  rewrite para_cada_add_to.
  destruct (mapM _ _) as [ms|]; cbn [mbind resultado_bind]; [|done].
  destruct (tem_rota_real caminhos) as [real|]; cbn [mbind resultado_bind]; [|done].
  destruct (if real then _ else _) as [linha|]; cbn [mbind resultado_bind]; [|done].
  rewrite !foldl_add_to. unfold mapa_de. simpl. by rewrite <- app_assoc.
Qed.

Lemma marcador_Ok_inv (pontos : list ponto) (nomes : list string)
    (sequencia : list nat) (i : nat) (m : folium.Elemento) :
  marcador pontos nomes sequencia i = Ok m ->
  exists idx p nome cor icone,
    sequencia !! i = Some idx /\ pontos !! idx = Some p /\
    nomes !! idx = Some nome /\
    cor_e_icone i (length sequencia) = (cor, icone) /\
    m = folium.Marker (reversed p)
          {| folium.html := popup_html cor i nome (reversed p);
             folium.max_width := 200 |}
          ("#" +:+ pretty (i + 1)%nat +:+ " - " +:+ nome)
          {| folium.icon := icone; folium.color := cor; folium.prefix := "fa" |} /\
    folium.validate_location (reversed p) = Ok tt.
Proof.
  unfold marcador.
  intros (idx & Hidx & Hm)%bind_Ok_inv.
  apply bind_Ok_inv in Hm as (p & Hp & Hm).
  apply bind_Ok_inv in Hm as (nome & Hnome & Hm).
  destruct (cor_e_icone i (length sequencia)) as [cor icone] eqn:Hcor.
  apply bind_Ok_inv in Hm as ([] & Hval & [= <-]).
  apply getitem_Ok in Hidx, Hp, Hnome.
  by exists idx, p, nome, cor, icone.
Qed.

Lemma marcador_Ok (pontos : list ponto) (nomes : list string)
    (sequencia : list nat) (i idx : nat) (p : ponto) :
  sequencia !! i = Some idx -> pontos !! idx = Some p ->
  (idx < length nomes)%nat ->
  folium.validate_location (reversed p) = Ok tt ->
  exists m, marcador pontos nomes sequencia i = Ok m.
Proof.
  intros Hidx Hp Hn Hval. unfold marcador.
  destruct (lookup_lt_is_Some_2 nomes idx Hn) as [nome Hn'].
  apply getitem_Ok in Hidx, Hp, Hn'. rewrite Hidx. simpl. rewrite Hp. simpl.
  rewrite Hn'. simpl. destruct (cor_e_icone _ _). rewrite Hval. simpl. eauto.
Qed.

Lemma marcador_Raise (pontos : list ponto) (nomes : list string)
    (sequencia : list nat) (i : nat) (e : excecao) :
  marcador pontos nomes sequencia i = Raise e ->
  e = IndexError "list index out of range" \/
  exists idx p,
    sequencia !! i = Some idx /\ pontos !! idx = Some p /\
    folium.validate_location (reversed p) = Raise e.
Proof.
  unfold marcador, getitem.
  destruct (sequencia !! i) as [idx|]; simpl; [|intros [= <-]; by left].
  destruct (pontos !! idx) as [p|] eqn:Hp; simpl; [|intros [= <-]; by left].
  destruct (nomes !! idx) as [nome|]; simpl; [|intros [= <-]; by left].
  destruct (cor_e_icone _ _).
  destruct (folium.validate_location (reversed p)) as [u|e'] eqn:Hval; simpl;
    [done|].
  intros [= <-]. right. by exists idx, p.
Qed.

Lemma centro_e_marcadores_Ok_inv (pontos : list ponto) (nomes : list string)
    (sequencia : list nat) (centro : float * float)
    (marcadores : list folium.Elemento) :
  centro_e_marcadores pontos nomes sequencia = Ok (centro, marcadores) ->
  exists i0 p0,
    sequencia !! 0%nat = Some i0 /\ pontos !! i0 = Some p0 /\
    centro = reversed p0 /\
    Forall2 (fun i m => marcador pontos nomes sequencia i = Ok m)
      (seq 0 (length sequencia)) marcadores.
Proof.
  unfold centro_e_marcadores.
  intros (i0 & Hi0 & Hr)%bind_Ok_inv.
  apply bind_Ok_inv in Hr as (p0 & Hp0 & Hr).
  apply bind_Ok_inv in Hr as (u & _ & Hr).
  apply bind_Ok_inv in Hr as (ms & Hms & [= <- <-]).
  apply getitem_Ok in Hi0, Hp0. apply mapM_Ok_inv in Hms.
  by exists i0, p0.
Qed.

Lemma centro_e_marcadores_Raise (pontos : list ponto) (nomes : list string)
    (sequencia : list nat) (e : excecao) :
  centro_e_marcadores pontos nomes sequencia = Raise e ->
  e = IndexError "list index out of range" \/
  exists i idx p,
    sequencia !! i = Some idx /\ pontos !! idx = Some p /\
    folium.validate_location (reversed p) = Raise e.
Proof.
  unfold centro_e_marcadores, getitem at 1 2.
  destruct (sequencia !! 0%nat) as [i0|] eqn:Hi0; simpl;
    [|intros [= <-]; by left].
  destruct (pontos !! i0) as [p0|] eqn:Hp0; simpl; [|intros [= <-]; by left].
  destruct (folium.validate_location (reversed p0)) as [u|e'] eqn:Hval; simpl;
    [|intros [= <-]; right; by exists 0%nat, i0, p0].
  intros [Hms|(ms & _ & [=])]%bind_Raise_inv.
  apply mapM_Raise_inv in Hms as (i & _ & Hi).
  apply marcador_Raise in Hi as [->|(idx & p & ? & ? & ?)]; [by left|right].
  by exists i, idx, p.
Qed.

Lemma gerar_mapa_Ok_inv (pontos : list ponto) (nomes : list string)
    (sequencia : list nat) (caminhos : option dict) (mapa : folium.Map) :
  gerar_mapa pontos nomes sequencia caminhos = Ok mapa ->
  exists centro marcadores real linha,
    centro_e_marcadores pontos nomes sequencia = Ok (centro, marcadores) /\
    Forall2 (fun i m => marcador pontos nomes sequencia i = Ok m)
      (seq 0 (length sequencia)) marcadores /\
    tem_rota_real caminhos = Ok real /\
    (if real : bool then linha_real caminhos else linha_reta pontos sequencia)
    = Ok linha /\
    mapa = mapa_de centro marcadores linha.
Proof.
  rewrite gerar_mapa_forma.
  intros ([centro ms] & Hcm & Hr)%bind_Ok_inv.
  apply bind_Ok_inv in Hr as (real & Hreal & Hr).
  apply bind_Ok_inv in Hr as (linha & Hlinha & [= <-]).
  destruct (centro_e_marcadores_Ok_inv _ _ _ _ _ Hcm) as (_ & _ & _ & _ & _ & Hms).
  by exists centro, ms, real, linha.
Qed.

Lemma linha_reta_Ok_inv (pontos : list ponto) (sequencia : list nat)
    (linha : folium.Elemento) :
  linha_reta pontos sequencia = Ok linha ->
  exists ps,
    Forall2 (fun idx p => pontos !! idx = Some p) sequencia ps /\
    linha = folium.PolyLine
              ((fun p : ponto => (VFloat p.2, VFloat p.1)) <$> ps)
              "#EE5A6F" 3 0x1.3333333333333p-1 (Some "10")
              "Rota aproximada (linha reta)".
Proof.
  unfold linha_reta. intros (rs & Hrs & Hr)%bind_Ok_inv.
  apply bind_Ok_inv in Hr as (u & _ & [= <-]).
  apply mapM_Ok_inv in Hrs.
  assert (exists ps, Forall2 (fun idx p => pontos !! idx = Some p) sequencia ps
                     /\ rs = reversed <$> ps) as (ps & Hps & ->).
  { clear -Hrs. induction Hrs as [|idx r s rs Hr _ (ps & Hps & ->)].
    - by exists [].
    - apply bind_Ok_inv in Hr as (p & Hp%getitem_Ok & [= <-]).
      exists (p :: ps). split; [by constructor|done]. }
  exists ps. split; [done|]. f_equal. rewrite <- list_fmap_compose.
  by apply list_fmap_ext.
Qed.

(** The stops of a sequence as points. *)
Lemma pontos_das_paradas (pontos : list ponto) (sequencia : list nat) :
  Forall (fun idx => exists p : ponto, pontos !! idx = Some p /\ finito p = true)
    sequencia ->
  exists ps,
    mapM (fun i => p ← getitem pontos i; Ok (reversed p)) sequencia = Ok ps /\
    length ps = length sequencia /\
    Forall (fun loc => finito loc = true) ps.
Proof.
  induction 1 as [|idx s (p & Hp & Hfin) _ (ps & Hps & Hlen & Hall)].
  - by exists [].
  - exists (reversed p :: ps). unfold getitem in *. simpl. rewrite Hp. simpl.
    rewrite Hps. simpl.
    split; [done|]. split; [by rewrite Hlen|].
    constructor; [by rewrite finito_reversed|done].
Qed.

Context `{!ValidacaoLaws}.

Lemma validate_location_Ok_nan (loc : float * float) (u : unit) :
  folium.validate_location loc = Ok u -> tem_nan loc = false.
Proof.
  intros Hval. destruct (tem_nan loc) eqn:Hnan; [|done].
  destruct (validate_location_nan loc Hnan) as [msg Hmsg]. congruence.
Qed.

Lemma linha_reta_Ok (pontos : list ponto) (sequencia : list nat) :
  sequencia <> [] ->
  Forall (fun idx => exists p : ponto, pontos !! idx = Some p /\ finito p = true)
    sequencia ->
  exists linha, linha_reta pontos sequencia = Ok linha.
Proof.
  intros Hne Hs. unfold linha_reta.
  destruct (pontos_das_paradas pontos sequencia Hs) as (ps & -> & Hlen & Hall).
  cbn [mbind resultado_bind].
  rewrite validate_locations_Ok; [simpl; eauto| |done].
  intros ->. by destruct sequencia.
Qed.

Lemma centro_e_marcadores_Ok (pontos : list ponto) (nomes : list string)
    (sequencia : list nat) :
  sequencia <> [] -> paradas_validas pontos nomes sequencia ->
  exists cm, centro_e_marcadores pontos nomes sequencia = Ok cm.
Proof.
  intros Hne Hval. unfold centro_e_marcadores.
  destruct sequencia as [|i0 resto]; [done|].
  pose proof (Forall_inv Hval) as (_ & p0 & Hp0 & Hfin0).
  change (getitem (i0 :: resto) 0) with (Ok (A := nat) i0).
  cbn [mbind resultado_bind].
  rewrite (proj2 (getitem_Ok _ _ _) Hp0). cbn [mbind resultado_bind].
  rewrite validate_location_Ok by (by rewrite finito_reversed).
  cbn [mbind resultado_bind].
  destruct (mapM_all_Ok (marcador pontos nomes (i0 :: resto))
              (seq 0 (length (i0 :: resto)))) as [ms ->]; [|simpl; eauto].
  intros i [_ Hi]%elem_of_seq.
  destruct (lookup_lt_is_Some_2 (i0 :: resto) i) as [idx Hidx]; [lia|].
  destruct (Forall_lookup_1 _ _ _ _ Hval Hidx) as (Hn & p & Hp & Hfin).
  eapply marcador_Ok; [done..|].
  apply validate_location_Ok. by rewrite finito_reversed.
Qed.

(** When the centre and the markers are made, no stop is invalid. *)
Lemma centro_e_marcadores_Ok_paradas (pontos : list ponto) (nomes : list string)
    (sequencia : list nat) (cm : (float * float) * list folium.Elemento) :
  centro_e_marcadores pontos nomes sequencia = Ok cm ->
  sequencia <> [] /\
  Forall (fun idx => ~ parada_invalida pontos nomes idx) sequencia.
Proof.
  destruct cm as [centro ms].
  intros (i0 & p0 & Hi0 & _ & _ & Hms)%centro_e_marcadores_Ok_inv. split.
  - by intros ->.
  - apply Forall_lookup. intros i idx Hidx.
    assert (i < length sequencia)%nat as Hlt by (by eapply lookup_lt_Some).
    destruct (Forall2_lookup_l _ _ _ i i Hms) as (m & _ & Hmarc);
      [by rewrite lookup_seq_lt|].
    apply marcador_Ok_inv in Hmarc
      as (idx' & p & nome & _ & _ & Hidx' & Hp & Hnome & _ & _ & Hval).
    assert (idx' = idx) as -> by congruence.
    apply validate_location_Ok_nan in Hval. rewrite tem_nan_reversed in Hval.
    apply lookup_lt_Some in Hnome.
    unfold parada_invalida. rewrite Hp, Hval. intros [?|?]; [lia|done].
Qed.

End MapaFacts.

(** The reference checks meet the laws. *)
Lemma coordenadas_validas (l : list (float * float)) :
  Forall (fun loc => finito loc = true) l ->
  exists r,
    mapM (fun loc : valor * valor =>
            _ ← coordenada_valida loc.1; coordenada_valida loc.2)
      ((fun c : float * float => (VFloat c.1, VFloat c.2)) <$> l)
    = Ok r.
Proof.
  induction 1 as [|c l Hc _ [r Hr]]; [by exists []|].
  apply finito_tem_nan, orb_false_iff in Hc as [Hc1 Hc2].
  exists (tt :: r). rewrite fmap_cons.
  change (mapM ?f (?x :: ?xs)) with (y ← f x; k ← mapM f xs; Ok (y :: k)).
  cbn [fst snd coordenada_valida]. rewrite Hc1, Hc2, Hr. done.
Qed.

#[global] Instance folium_ref_laws : @ValidacaoLaws folium_ref.
Proof.
  split.
  - intros loc Hloc%finito_tem_nan. simpl. by rewrite Hloc.
  - intros loc Hloc. simpl. rewrite Hloc. eauto.
  - simpl. eauto.
  - intros locs Hne Hall.
    destruct (coordenadas_validas locs Hall) as [r Hr].
    destruct locs as [|loc locs]; [done|].
    cbn [folium.validate_locations folium_ref].
    rewrite fmap_cons in Hr |- *. cbv beta iota. by rewrite Hr.
Qed.

(** X1.  Folium checking its locations as documented, [gerar_mapa] without
    a real route returns a map when the sequence is not empty and each of
    its stops is an index of the points and of the names and stands for a
    point with finite coordinates.  When the sequence is empty, or one of
    its stops is no index of one of the lists or stands for a point with a
    NaN, no map is returned, whatever the route: the call raises, and what
    it raises is [IndexError] or the [ValueError] of folium when no stop has
    an infinite coordinate. *)
Theorem X1_gerar_mapa_paradas `{folium.Validacao} `{!ValidacaoLaws}
    (pontos : list ponto) (nomes : list string) (sequencia : list nat) :
  (sequencia <> [] /\ paradas_validas pontos nomes sequencia ->
   exists mapa, gerar_mapa pontos nomes sequencia None = Ok mapa) /\
  (sequencia = [] \/ Exists (parada_invalida pontos nomes) sequencia ->
   forall caminhos,
     exists e,
       gerar_mapa pontos nomes sequencia caminhos = Raise e /\
       (Forall (fun idx => forall p : ponto, pontos !! idx = Some p ->
                  tem_nan p = true \/ finito p = true) sequencia ->
        e = IndexError "list index out of range" \/
        exists msg, e = ValueError msg)).
Proof.
  split.
  - intros [Hne Hval]. rewrite gerar_mapa_forma.
    destruct (centro_e_marcadores_Ok _ _ _ Hne Hval) as [cm ->].
    rewrite tem_rota_real_None. cbn [mbind resultado_bind].
    destruct (linha_reta_Ok pontos sequencia Hne) as [linha ->]; [|simpl; eauto].
    eapply Forall_impl; [exact Hval|]. by intros idx [_ ?].
  - intros Hbad caminhos. rewrite gerar_mapa_forma.
    destruct (centro_e_marcadores pontos nomes sequencia) as [cm|e] eqn:Hcm.
    + exfalso. apply centro_e_marcadores_Ok_paradas in Hcm as [Hne Hok].
      destruct Hbad as [->|(idx & Hidx & Hinv)%Exists_exists]; [done|].
      rewrite Forall_forall in Hok. by apply (Hok idx Hidx).
    + exists e. split; [done|]. intros Hpts.
      destruct (centro_e_marcadores_Raise _ _ _ _ Hcm)
        as [->|(i & idx & p & Hi & Hp & Hval)]; [by left|right].
      destruct (Forall_lookup_1 _ _ _ _ Hpts Hi p Hp) as [Hnan|Hfin].
      * destruct (validate_location_nan (reversed p)) as [msg Hmsg];
          [by rewrite tem_nan_reversed|].
        exists msg. congruence.
      * rewrite validate_location_Ok in Hval by (by rewrite finito_reversed).
        done.
Qed.

Lemma X1_gerar_mapa_paradas_witness :
  (exists mapa,
     @gerar_mapa folium_ref dois_pontos ["A"; "B"] [0; 1; 0]%nat None = Ok mapa) /\
  (forall caminhos,
     exists e,
       @gerar_mapa folium_ref [(0, 0); (nan, 0)]%float ["A"; "B"] [0; 1; 0]%nat
         caminhos = Raise e /\
       (e = IndexError "list index out of range" \/
        exists msg, e = ValueError msg)).
Proof.
  split.
  - apply (proj1 (@X1_gerar_mapa_paradas folium_ref folium_ref_laws
                    dois_pontos ["A"; "B"] [0; 1; 0]%nat)).
    split; [done|].
    repeat constructor; simpl; try lia; by eexists.
  - intros caminhos.
    destruct (proj2 (@X1_gerar_mapa_paradas folium_ref folium_ref_laws
                       [(0, 0); (nan, 0)]%float ["A"; "B"] [0; 1; 0]%nat))
      with (caminhos := caminhos) as (e & He & Herro).
    { right. apply Exists_cons_tl, Exists_cons_hd. right. reflexivity. }
    exists e. split; [done|]. apply Herro.
    repeat (apply Forall_cons_2; [intros p [= <-]; vm_compute; auto|]).
    apply Forall_nil_2.
Defined.

(** X2.  A map that [gerar_mapa] returns has one marker per stop, in the
    order of the sequence, before the line and the controls; the marker of
    stop [i] stands at (latitude, longitude) of its point, carries the
    label "#i+1 - name", and is green for the first stop, red for the last
    one when it is not the first, blue in between. *)
Theorem X2_gerar_mapa_marcadores `{folium.Validacao} (pontos : list ponto)
    (nomes : list string) (sequencia : list nat) (caminhos : option dict)
    (mapa : folium.Map) :
  gerar_mapa pontos nomes sequencia caminhos = Ok mapa ->
  exists marcadores linha,
    folium.children mapa = marcadores ++ linha :: controles /\
    length marcadores = length sequencia /\
    forall i idx, sequencia !! i = Some idx ->
      exists p nome popup cor icone,
        pontos !! idx = Some p /\ nomes !! idx = Some nome /\
        marcadores !! i
        = Some (folium.Marker (p.2, p.1) popup
                  ("#" +:+ pretty (i + 1)%nat +:+ " - " +:+ nome)
                  {| folium.icon := icone; folium.color := cor;
                     folium.prefix := "fa" |}) /\
        (i = 0%nat -> cor = "green" /\ icone = "play") /\
        ((0 < i)%nat -> i = (length sequencia - 1)%nat ->
         cor = "red" /\ icone = "stop") /\
        ((0 < i)%nat -> (i < length sequencia - 1)%nat ->
         cor = "blue" /\ icone = "info-sign").
Proof.
  intros (centro & ms & real & linha & _ & Hms & _ & _ & ->)%gerar_mapa_Ok_inv.
  exists ms, linha. split; [done|].
  pose proof (Forall2_length _ _ _ Hms) as Hlen. rewrite length_seq in Hlen.
  split; [done|]. intros i idx Hi.
  assert (i < length sequencia)%nat as Hlt by (by eapply lookup_lt_Some).
  destruct (Forall2_lookup_l _ _ _ i i Hms) as (m & Hm & Hmarc);
    [by rewrite lookup_seq_lt|].
  apply marcador_Ok_inv in Hmarc
    as (idx' & p & nome & cor & icone & Hidx' & Hp & Hnome & Hcor & -> & _).
  assert (idx' = idx) as -> by congruence.
  eexists p, nome, _, cor, icone. repeat split; try done.
  all: destruct (cor_e_icone_casos i (length sequencia))
         as [[? Hc]|[(? & ? & Hc)|(? & ? & Hc)]];
       rewrite Hcor in Hc; injection Hc as -> ->; intros; (done || lia).
Qed.

Lemma X2_gerar_mapa_marcadores_witness :
  exists marcadores linha,
    folium.children mapa_dois_pontos = marcadores ++ linha :: controles /\
    length marcadores = 3%nat /\
    forall i idx, [0; 1; 0]%nat !! i = Some idx ->
      exists p nome popup cor icone,
        dois_pontos !! idx = Some p /\ ["A"; "B"] !! idx = Some nome /\
        marcadores !! i
        = Some (folium.Marker (p.2, p.1) popup
                  ("#" +:+ pretty (i + 1)%nat +:+ " - " +:+ nome)
                  {| folium.icon := icone; folium.color := cor;
                     folium.prefix := "fa" |}) /\
        (i = 0%nat -> cor = "green" /\ icone = "play") /\
        ((0 < i)%nat -> i = (3 - 1)%nat -> cor = "red" /\ icone = "stop") /\
        ((0 < i)%nat -> (i < 3 - 1)%nat -> cor = "blue" /\ icone = "info-sign").
Proof.
  apply (@X2_gerar_mapa_marcadores folium_ref dois_pontos ["A"; "B"]
           [0; 1; 0]%nat None).
  by vm_compute.
Defined.

(** X3.  [gerar_mapa] draws the same map for a route dict that has no key
    'features', or has it with an empty list, as for no route at all: its
    guard tests the length of the list (the guard of
    [calcular_estatisticas_rota] does not). *)
Theorem X3_gerar_mapa_features_vazio `{folium.Validacao} (pontos : list ponto)
    (nomes : list string) (sequencia : list nat) (d : dict) :
  d !! "features" = None \/ d !! "features" = Some (VList []) ->
  gerar_mapa pontos nomes sequencia (Some d)
  = gerar_mapa pontos nomes sequencia None.
Proof.
  intros Hd. rewrite !gerar_mapa_forma.
  by rewrite (tem_rota_real_sem_rota d Hd), tem_rota_real_None.
Qed.

Lemma X3_gerar_mapa_features_vazio_witness :
  @gerar_mapa folium_ref dois_pontos ["A"; "B"] [0; 1; 0]%nat
    (Some {[ "features" := VList [] ]})
  = @gerar_mapa folium_ref dois_pontos ["A"; "B"] [0; 1; 0]%nat None.
Proof.
  apply (@X3_gerar_mapa_features_vazio folium_ref dois_pontos ["A"; "B"]
           [0; 1; 0]%nat {[ "features" := VList [] ]}).
  right. reflexivity.
Defined.

(** X4.  Without a real route, the line of a map that [gerar_mapa] returns
    is the dashed line '#EE5A6F' through the positions of the markers, in
    their order. *)
Theorem X4_gerar_mapa_linha_reta `{folium.Validacao} (pontos : list ponto)
    (nomes : list string) (sequencia : list nat) (mapa : folium.Map) :
  gerar_mapa pontos nomes sequencia None = Ok mapa ->
  exists marcadores locations,
    folium.children mapa
    = marcadores
      ++ folium.PolyLine locations "#EE5A6F" 3 0x1.3333333333333p-1 (Some "10")
           "Rota aproximada (linha reta)" :: controles /\
    Forall2 (fun m loc =>
      exists lat lon popup tooltip icon,
        m = folium.Marker (lat, lon) popup tooltip icon /\
        loc = (VFloat lat, VFloat lon)) marcadores locations.
Proof.
  intros (centro & ms & real & linha & _ & Hms & Hreal & Hlinha & ->)
    %gerar_mapa_Ok_inv.
  rewrite tem_rota_real_None in Hreal. injection Hreal as <-.
  apply linha_reta_Ok_inv in Hlinha as (ps & Hps & ->).
  eexists ms, _. split; [done|].
  apply Forall2_same_length_lookup. split.
  - rewrite length_fmap, <- (Forall2_length _ _ _ Hps),
      <- (Forall2_length _ _ _ Hms). by rewrite length_seq.
  - intros i m loc Hm Hloc.
    apply list_lookup_fmap_Some in Hloc as (p & -> & Hp).
    destruct (Forall2_lookup_r _ _ _ _ _ Hms Hm) as (i' & Hi' & Hmarc).
    apply lookup_seq in Hi' as [-> _].
    apply marcador_Ok_inv in Hmarc
      as (idx & p' & nome & cor & icone & Hidx & Hp' & _ & _ & -> & _).
    destruct (Forall2_lookup_r _ _ _ _ _ Hps Hp) as (idx' & Hidx' & Hp'').
    simpl in Hidx. assert (p' = p) as -> by congruence.
    by eexists _, _, _, _, _.
Qed.

Lemma X4_gerar_mapa_linha_reta_witness :
  exists marcadores locations,
    folium.children mapa_dois_pontos
    = marcadores
      ++ folium.PolyLine locations "#EE5A6F" 3 0x1.3333333333333p-1 (Some "10")
           "Rota aproximada (linha reta)" :: controles /\
    Forall2 (fun m loc =>
      exists lat lon popup tooltip icon,
        m = folium.Marker (lat, lon) popup tooltip icon /\
        loc = (VFloat lat, VFloat lon)) marcadores locations.
Proof.
  apply (@X4_gerar_mapa_linha_reta folium_ref dois_pontos ["A"; "B"]
           [0; 1; 0]%nat).
  by vm_compute.
Defined.

(** X5.  When the first feature of the route holds its coordinates as a list
    of positions [lon, lat, ...], the line of a map that [gerar_mapa]
    returns is the solid line '#2E86DE' through those positions, each
    turned into (lat, lon); the straight lines are not drawn. *)
Theorem X5_gerar_mapa_rota_real `{folium.Validacao} (pontos : list ponto)
    (nomes : list string) (sequencia : list nat) (d f g : dict)
    (resto cs : list valor) (pares : list (valor * valor)) (mapa : folium.Map) :
  d !! "features" = Some (VList (VDict f :: resto)) ->
  f !! "geometry" = Some (VDict g) ->
  g !! "coordinates" = Some (VList cs) ->
  Forall2 (fun c par => exists alt, c = VList (par.1 :: par.2 :: alt)) cs pares ->
  gerar_mapa pontos nomes sequencia (Some d) = Ok mapa ->
  exists marcadores tooltip,
    folium.children mapa
    = marcadores
      ++ folium.PolyLine ((fun par : valor * valor => (par.2, par.1)) <$> pares)
           "#2E86DE" 4 0x1.999999999999ap-1 None tooltip :: controles.
Proof.
  intros Hd Hf Hg Hcs
    (centro & ms & real & linha & _ & _ & Hreal & Hlinha & ->)%gerar_mapa_Ok_inv.
  rewrite (tem_rota_real_features d _ _ Hd) in Hreal. injection Hreal as <-.
  unfold linha_real in Hlinha.
  rewrite (primeira_feature_Ok d _ _ Hd) in Hlinha. simpl in Hlinha.
  rewrite Hf in Hlinha. simpl in Hlinha. rewrite Hg in Hlinha. simpl in Hlinha.
  apply bind_Ok_inv in Hlinha as (summary & _ & Hlinha).
  apply bind_Ok_inv in Hlinha as (distancia_m & _ & Hlinha).
  apply bind_Ok_inv in Hlinha as (duracao_s & _ & Hlinha).
  apply bind_Ok_inv in Hlinha as (km & _ & Hlinha).
  apply bind_Ok_inv in Hlinha as (horas & _ & Hlinha).
  apply bind_Ok_inv in Hlinha as (locations & Hloc & Hlinha).
  apply bind_Ok_inv in Hlinha as (u & _ & [= <-]).
  eexists ms, _. simpl. do 3 f_equal.
  apply mapM_Ok_inv in Hloc. clear -Hloc Hcs.
  revert pares Hcs. induction Hloc as [|c loc cs locs Hc _ IH]; intros pares Hcs.
  - by inversion Hcs.
  - inversion Hcs as [|? [x y] ? pares' (alt & ->) Hcs']; subst.
    simpl in Hc. injection Hc as <-. simpl. f_equal. by apply IH.
Qed.

Lemma X5_gerar_mapa_rota_real_witness :
  exists marcadores tooltip,
    folium.children mapa_com_rota
    = marcadores
      ++ folium.PolyLine
           ((fun par : valor * valor => (par.2, par.1))
              <$> [(VInt 1, VInt 2); (VInt 3, VInt 4)])
           "#2E86DE" 4 0x1.999999999999ap-1 None tooltip :: controles.
Proof.
  apply (@X5_gerar_mapa_rota_real folium_ref dois_pontos ["A"; "B"]
           [0; 1; 0]%nat (rota_por posicoes_exemplo)
           {[ "geometry" := VDict {[ "coordinates" := VList posicoes_exemplo ]} ]}
           {[ "coordinates" := VList posicoes_exemplo ]}
           [] posicoes_exemplo [(VInt 1, VInt 2); (VInt 3, VInt 4)]).
  - reflexivity.
  - reflexivity.
  - reflexivity.
  - repeat constructor; by eexists.
  - by vm_compute.
Defined.

(** X6.  A route whose first feature is a dict without the key 'geometry'
    makes [gerar_mapa] raise [KeyError], on every input for which the map
    without a route is drawn. *)
Theorem X6_gerar_mapa_sem_geometry `{folium.Validacao} (pontos : list ponto)
    (nomes : list string) (sequencia : list nat) (d f : dict)
    (resto : list valor) (mapa : folium.Map) :
  d !! "features" = Some (VList (VDict f :: resto)) ->
  f !! "geometry" = None ->
  gerar_mapa pontos nomes sequencia None = Ok mapa ->
  gerar_mapa pontos nomes sequencia (Some d) = Raise (KeyError "geometry").
Proof.
  intros Hd Hf (centro & ms & _ & _ & Hcm & _)%gerar_mapa_Ok_inv.
  rewrite gerar_mapa_forma, Hcm, (tem_rota_real_features d _ _ Hd). simpl.
  unfold linha_real. rewrite (primeira_feature_Ok d _ _ Hd). simpl.
  by rewrite Hf.
Qed.

Lemma X6_gerar_mapa_sem_geometry_witness :
  @gerar_mapa folium_ref dois_pontos ["A"; "B"] [0; 1; 0]%nat
    (Some {[ "features" := VList [VDict ∅] ]})
  = Raise (KeyError "geometry").
Proof.
  apply (@X6_gerar_mapa_sem_geometry folium_ref dois_pontos ["A"; "B"]
           [0; 1; 0]%nat {[ "features" := VList [VDict ∅] ]} ∅ []
           mapa_dois_pontos).
  - reflexivity.
  - reflexivity.
  - by vm_compute.
Defined.

(** X7.  When the first feature of the route has a geometry and no
    'properties', the line of the real route is drawn with the label of a
    distance and a time of zero, "Distância: 0.0 km | Tempo: 0.0h". *)
Theorem X7_gerar_mapa_sem_properties `{folium.Validacao} (pontos : list ponto)
    (nomes : list string) (sequencia : list nat) (d f : dict)
    (resto : list valor) (mapa : folium.Map) :
  d !! "features" = Some (VList (VDict f :: resto)) ->
  f !! "properties" = None ->
  gerar_mapa pontos nomes sequencia (Some d) = Ok mapa ->
  exists marcadores locations,
    folium.children mapa
    = marcadores
      ++ folium.PolyLine locations "#2E86DE" 4 0x1.999999999999ap-1 None
           "Distância: 0.0 km | Tempo: 0.0h" :: controles.
Proof.
  intros Hd Hf
    (centro & ms & real & linha & _ & _ & Hreal & Hlinha & ->)%gerar_mapa_Ok_inv.
  rewrite (tem_rota_real_features d _ _ Hd) in Hreal. injection Hreal as <-.
  unfold linha_real in Hlinha.
  rewrite (primeira_feature_Ok d _ _ Hd) in Hlinha. simpl in Hlinha.
  destruct (f !! "geometry") as [geometry|]; simpl in Hlinha; [|done].
  apply bind_Ok_inv in Hlinha as (coords & _ & Hlinha).
  rewrite Hf in Hlinha. simpl in Hlinha.
  repeat (rewrite lookup_empty in Hlinha; simpl in Hlinha).
  change (int_truediv 0 1000) with (Ok (A := float) 0%float) in Hlinha.
  change (int_truediv 0 3600) with (Ok (A := float) 0%float) in Hlinha.
  cbn [mbind resultado_bind] in Hlinha.
  apply bind_Ok_inv in Hlinha as (itens & _ & Hlinha).
  apply bind_Ok_inv in Hlinha as (locations & _ & Hlinha).
  apply bind_Ok_inv in Hlinha as (u & _ & [= <-]).
  by exists ms, locations.
Qed.

Lemma X7_gerar_mapa_sem_properties_witness :
  exists marcadores locations,
    folium.children mapa_com_rota
    = marcadores
      ++ folium.PolyLine locations "#2E86DE" 4 0x1.999999999999ap-1 None
           "Distância: 0.0 km | Tempo: 0.0h" :: controles.
Proof.
  apply (@X7_gerar_mapa_sem_properties folium_ref dois_pontos ["A"; "B"]
           [0; 1; 0]%nat (rota_por posicoes_exemplo)
           {[ "geometry" := VDict {[ "coordinates" := VList posicoes_exemplo ]} ]}
           []).
  - reflexivity.
  - reflexivity.
  - by vm_compute.
Defined.

(** ** More on [otimizar_rota] and the steps around it *)

Section Composicao.
Context `{MathHypot} `{Solver} `{!SolverContract}.

(** The stops of a returned tour are indices of the points. *)
Lemma otimizar_rota_paradas (fuel : nat) (pontos : list ponto)
    (sequencia : list nat) (distancia : float) :
  otimizar_rota fuel pontos = Some (Ok (sequencia, distancia)) ->
  (2 <= length pontos)%nat /\
  Forall (fun idx => (idx < length pontos)%nat) sequencia.
Proof.
  intros Hok.
  destruct (Nat.lt_ge_cases (length pontos) 2) as [Hlt|Hlen].
  { by rewrite (otimizar_rota_poucos fuel pontos Hlt) in Hok. }
  split; [done|].
  destruct (otimizar_rota_Ok_inv _ _ _ _ Hok)
    as (m & solution & resto & total & _ & _ & Hresto & -> & _).
  apply Forall_cons. split; [lia|]. apply Forall_app. split.
  - apply Forall_forall. intros j Hj. rewrite Hresto in Hj.
    apply elem_of_seq in Hj. lia.
  - apply Forall_singleton. lia.
Qed.

(** X8.  Past the guard, [otimizar_rota] ends in one of three ways only: the
    error of [int()] met while the matrix is built, [RuntimeError] when the
    solver returns no solution, or a tour.  Its own indexing never raises. *)
Theorem X8_otimizar_rota_desfechos (fuel : nat) (pontos : list ponto) :
  (2 <= length pontos)%nat -> (length pontos + 1 <= fuel)%nat ->
  (exists e, otimizar_rota fuel pontos = Some (Raise e) /\
             dist_matrix pontos = Raise e /\ erro_de_conversao e) \/
  (exists m, otimizar_rota fuel pontos
               = Some (Raise (RuntimeError msg_sem_solucao)) /\
             dist_matrix pontos = Ok m /\ retorno (busca_de m) = None) \/
  (exists sequencia distancia,
     otimizar_rota fuel pontos = Some (Ok (sequencia, distancia))).
Proof.
  intros Hlen Hfuel.
  destruct (dist_matrix pontos) as [m|e] eqn:Hm; cycle 1.
  { left. exists e. split; [by apply otimizar_rota_matriz_Raise|].
    split; [done|]. by eapply dist_matrix_Raise. }
  right. pose proof (otimizar_rota_termina fuel pontos Hlen Hfuel) as Hterm.
  rewrite (otimizar_rota_eq fuel pontos m Hlen Hm) in Hterm |- *.
  destruct (retorno (busca_de m)) as [solution|] eqn:Hsol;
    [right|left; by exists m].
  destruct (busca_de_rota pontos m solution Hlen Hm Hsol) as [Hint _].
  destruct (int_truediv_int64 _ Hint) as [x ->].
  destruct (extrair_sequencia _ _ _ _ _ _) as [s|]; [simpl; eauto|done].
Qed.

(** X9.  On two points the tour is 0, 1, 0 whatever the solver finds, and
    the distance returned is the way there plus the way back, over 1000, as
    long as the two add up to less than the largest int64. *)
Theorem X9_otimizar_rota_dois_pontos `{!HypotNaoNegativo} (fuel : nat)
    (a b : ponto) (sequencia : list nat) (distancia : float) :
  otimizar_rota fuel [a; b] = Some (Ok (sequencia, distancia)) ->
  sequencia = [0; 1; 0]%nat /\
  exists ida volta,
    distancia_euclidiana a b = Ok ida /\
    distancia_euclidiana b a = Ok volta /\
    (ida + volta < int64_max ->
     int_truediv (ida + volta) 1000 = Ok distancia).
Proof.
  intros Hok.
  destruct (otimizar_rota_Ok_inv _ _ _ _ Hok)
    as (m & solution & resto & total & Hm & _ & Hresto & -> & Hcost & Hdist & Hobj & _).
  simpl in Hresto. apply Permutation_singleton_r in Hresto as ->.
  split; [done|].
  destruct (dist_matrix_entrada [a; b] m 0 1 a b Hm eq_refl eq_refl)
    as (ida & Hida & Ha).
  destruct (dist_matrix_entrada [a; b] m 1 0 b a Hm eq_refl eq_refl)
    as (volta & Hvolta & Hb).
  exists ida, volta. split; [done|]. split; [done|].
  unfold entrada in Hida, Hvolta. simpl in Hcost. unfold getitem in Hcost.
  destruct (m !! 0%nat) as [l0|]; [|done]. simpl in Hida, Hcost.
  rewrite Hida in Hcost. simpl in Hcost.
  destruct (m !! 1%nat) as [l1|]; [|done]. simpl in Hvolta, Hcost.
  rewrite Hvolta in Hcost. simpl in Hcost.
  injection Hcost as <-. rewrite Z.add_0_r in Hobj.
  intros Hmax.
  by rewrite <- (Hobj (dist_matrix_nao_negativa [a; b] m Hm) Hmax).
Qed.

Lemma custo_percurso_nulo (m : list (list Z)) (tour : list nat) (total : Z) :
  (forall i j c, entrada m i j = Some c -> c = 0) ->
  custo_percurso m tour = Ok total -> total = 0.
Proof.
  intros Hzero. revert total.
  induction tour as [|i resto IH]; intros total; simpl; [by intros [= <-]|].
  destruct resto as [|j resto]; [by intros [= <-]|].
  intros (linha & Hlinha%getitem_Ok & Hc)%bind_Ok_inv.
  apply bind_Ok_inv in Hc as (c & Hc%getitem_Ok & Ht).
  apply bind_Ok_inv in Ht as (t & Ht & [= <-]).
  rewrite (IH t Ht), (Hzero i j c); [done|].
  unfold entrada. by rewrite Hlinha.
Qed.

(** X10.  When all the points are one and the same finite point, every tour
    returned has distance 0. *)
Theorem X10_otimizar_rota_pontos_coincidentes `{!HypotLaws} (fuel : nat)
    (pontos : list ponto) (p : ponto) (sequencia : list nat) (distancia : float) :
  Forall (fun q => q = p) pontos ->
  isfinite p.1 = true -> isfinite p.2 = true ->
  otimizar_rota fuel pontos = Some (Ok (sequencia, distancia)) ->
  distancia = 0%float.
Proof.
  intros Hpontos Hf1 Hf2 Hok.
  destruct (otimizar_rota_Ok_inv _ _ _ _ Hok)
    as (m & solution & resto & total & Hm & _ & _ & _ & Hcost & Hdist & Hobj & _).
  destruct (dist_matrix_linhas pontos m Hm) as [Hlm Hrows].
  assert (forall i j c, entrada m i j = Some c -> c = 0) as Hzero.
  { intros i j c Hc. unfold entrada in Hc.
    destruct (m !! i) as [linha|] eqn:Hlinha; [|done]. simpl in Hc.
    assert (i < length pontos)%nat as Hi.
    { rewrite <- Hlm. by eapply lookup_lt_Some. }
    assert (j < length pontos)%nat as Hj.
    { rewrite <- (Forall_lookup_1 _ _ _ _ Hrows Hlinha). by eapply lookup_lt_Some. }
    destruct (lookup_lt_is_Some_2 pontos i Hi) as [a Ha].
    destruct (lookup_lt_is_Some_2 pontos j Hj) as [b Hb].
    destruct (dist_matrix_entrada pontos m i j a b Hm Ha Hb) as (c' & Hc' & Hd).
    unfold entrada in Hc'. rewrite Hlinha in Hc'. simpl in Hc'.
    rewrite (Forall_lookup_1 _ _ _ _ Hpontos Ha),
      (Forall_lookup_1 _ _ _ _ Hpontos Hb),
      (distancia_euclidiana_diag p Hf1 Hf2) in Hd.
    congruence. }
  pose proof (custo_percurso_nulo m sequencia total Hzero Hcost) as ->.
  rewrite Hobj in Hdist; [|intros i j c ->%Hzero; lia|done].
  vm_compute in Hdist. congruence.
Qed.

(** X11.  The comprehensions of [app.py] over a tour that [otimizar_rota]
    returned never fail: the points in the order of the visit are the depot,
    then every other point once, then the depot again, and so are the names
    when there is one name per point. *)
Theorem X11_pontos_otimizados (fuel : nat) (pontos : list ponto)
    (nomes : list string) (sequencia : list nat) (distancia : float) :
  otimizar_rota fuel pontos = Some (Ok (sequencia, distancia)) ->
  length nomes = length pontos ->
  (exists deposito outros,
     pontos_otimizados pontos sequencia = Ok (deposito :: outros ++ [deposito]) /\
     pontos !! 0%nat = Some deposito /\ deposito :: outros ≡ₚ pontos) /\
  (exists nome outros,
     sequencia_nomes nomes sequencia = Ok (nome :: outros ++ [nome]) /\
     nomes !! 0%nat = Some nome /\ nome :: outros ≡ₚ nomes).
Proof.
  intros Hok Hnomes.
  destruct (otimizar_rota_paradas _ _ _ _ Hok) as [Hlen _].
  destruct (otimizar_rota_Ok_inv _ _ _ _ Hok)
    as (m & solution & resto & total & _ & _ & Hresto & -> & _).
  assert (forall (A : Type) (l : list A), length l = length pontos ->
            exists x xs,
              mapM (fun i => getitem l i) (0%nat :: resto ++ [0%nat])
              = Ok (x :: xs ++ [x]) /\
              l !! 0%nat = Some x /\ x :: xs ≡ₚ l) as Hgeral.
  { intros A l Hl.
    destruct l as [|x l']; [simpl in Hl; lia|].
    assert (forall idxs, Forall (fun i => (i < length (x :: l'))%nat) idxs ->
              mapM (fun i => getitem (x :: l') i) idxs
              = Ok ((fun i => default x ((x :: l') !! i)) <$> idxs)) as Hmap.
    { induction idxs as [|i idxs IH]; intros Hidxs; [done|].
      apply Forall_cons in Hidxs as [Hi Hidxs]. simpl mapM.
      rewrite (IH Hidxs). unfold getitem.
      destruct (lookup_lt_is_Some_2 (x :: l') i Hi) as [y Hy].
      rewrite Hy. simpl. by rewrite Hy. }
    exists x, ((fun i => default x ((x :: l') !! i)) <$> resto).
    split; [|split; [done|]].
    - rewrite Hmap.
      + simpl. by rewrite fmap_app.
      + rewrite Hl. apply Forall_cons. split; [lia|]. apply Forall_app. split.
        * apply Forall_forall. intros j Hj. rewrite Hresto in Hj.
          apply elem_of_seq in Hj. lia.
        * apply Forall_singleton. lia.
    - rewrite Hresto.
      replace (length pontos - 1)%nat with (length l') by (simpl in Hl; lia).
      f_equiv.
      assert ((fun i => default x ((x :: l') !! i)) <$> seq 1 (length l') = l')
        as ->; [|done].
      apply list_eq. intros i. rewrite list_lookup_fmap.
      destruct (decide (i < length l')%nat) as [Hi|Hi].
      + rewrite lookup_seq_lt by done. simpl.
        by destruct (lookup_lt_is_Some_2 l' i Hi) as [y ->].
      + rewrite lookup_seq_ge by lia. by rewrite lookup_ge_None_2 by lia. }
  split; [apply Hgeral; done|apply Hgeral; done].
Qed.

(** The loop of the Euclidean statistics adds up the matrix costs along the
    sequence. *)
Lemma soma_euclidiana (pontos : list ponto) (m : list (list Z))
    (sequencia : list nat) :
  dist_matrix pontos = Ok m ->
  Forall (fun idx => (idx < length pontos)%nat) sequencia ->
  forall (k : nat) (acc : Z),
    para_cada (fun i distancia_total =>
      idx_atual ← getitem sequencia i;
      idx_proximo ← getitem sequencia (i + 1);
      a ← getitem pontos idx_atual;
      b ← getitem pontos idx_proximo;
      d ← distancia_euclidiana a b;
      Ok (distancia_total + d)) k (length (drop k sequencia) - 1) acc
    = t ← custo_percurso m (drop k sequencia); Ok (acc + t).
Proof.
  intros Hm Hval k.
  remember (length (drop k sequencia) - 1)%nat as n eqn:Hn.
  revert k Hn. induction n as [|n IH]; intros k Hn acc.
  - simpl. destruct (drop k sequencia) as [|i [|j l]]; simpl in *;
      [by rewrite Z.add_0_r|by rewrite Z.add_0_r|lia].
  - destruct (drop k sequencia) as [|i [|j l]] eqn:Hdrop; simpl in Hn; try lia.
    assert (sequencia !! k = Some i) as Hi.
    { by rewrite <- (Nat.add_0_r k), <- lookup_drop, Hdrop. }
    assert (sequencia !! (k + 1)%nat = Some j) as Hj.
    { by rewrite <- lookup_drop, Hdrop. }
    assert (drop (S k) sequencia = j :: l) as Hdrop'.
    { replace (S k) with (k + 1)%nat by lia.
      by rewrite <- (drop_drop sequencia 1 k), Hdrop. }
    destruct (lookup_lt_is_Some_2 pontos i) as [a Ha].
    { by apply (Forall_lookup_1 _ _ _ _ Hval Hi). }
    destruct (lookup_lt_is_Some_2 pontos j) as [b Hb].
    { by apply (Forall_lookup_1 _ _ _ _ Hval Hj). }
    destruct (dist_matrix_entrada pontos m i j a b Hm Ha Hb) as (c & Hc & Hd).
    unfold entrada in Hc.
    destruct (m !! i) as [linha|] eqn:Hlinha; [|done]. simpl in Hc.
    simpl para_cada.
    rewrite (proj2 (getitem_Ok _ _ _) Hi). cbn [mbind resultado_bind].
    rewrite (proj2 (getitem_Ok _ _ _) Hj). cbn [mbind resultado_bind].
    rewrite (proj2 (getitem_Ok _ _ _) Ha). cbn [mbind resultado_bind].
    rewrite (proj2 (getitem_Ok _ _ _) Hb). cbn [mbind resultado_bind].
    rewrite Hd. cbn [mbind resultado_bind].
    rewrite (IH (S k)) by (rewrite Hdrop'; simpl; lia).
    rewrite Hdrop'.
    change (custo_percurso m (i :: j :: l))
      with (linha ← getitem m i; c ← getitem linha j;
            t ← custo_percurso m (j :: l); Ok (c + t)).
    rewrite (proj2 (getitem_Ok _ _ _) Hlinha). cbn [mbind resultado_bind].
    rewrite (proj2 (getitem_Ok _ _ _) Hc). cbn [mbind resultado_bind].
    destruct (custo_percurso m (j :: l)) as [t|]; [|done].
    cbn [mbind resultado_bind]. by rewrite Z.add_assoc.
Qed.

(** X12.  With no real route, the statistics of a tour that [otimizar_rota]
    returned, when the matrix costs along it add up to less than the largest
    int64, are these: [num_paradas] is one more than the number of points,
    and [distancia_km] is the very [distancia_total] that [otimizar_rota]
    returned. *)
Theorem X12_estatisticas_do_tour `{!HypotNaoNegativo} (fuel : nat)
    (pontos : list ponto) (sequencia : list nat) (distancia : float) :
  otimizar_rota fuel pontos = Some (Ok (sequencia, distancia)) ->
  exists m total,
    dist_matrix pontos = Ok m /\
    custo_percurso m sequencia = Ok total /\
    (total < int64_max ->
     calcular_estatisticas_rota pontos sequencia None
     = Ok {| num_pontos := length pontos;
             num_paradas := (length pontos + 1)%nat;
             distancia_km := distancia;
             tempo_horas := (distancia / 60)%float;
             tempo_minutos := (distancia / 60 * 60)%float |}).
Proof.
  intros Hok.
  destruct (otimizar_rota_paradas _ _ _ _ Hok) as [Hlen Hval].
  destruct (otimizar_rota_Ok_inv _ _ _ _ Hok)
    as (m & solution & resto & total & Hm & _ & Hresto & Hseq & Hcost & Hdist & Hobj & _).
  exists m, total. split; [done|]. split; [done|]. intros Hmax.
  rewrite (Hobj (dist_matrix_nao_negativa pontos m Hm) Hmax) in Hdist.
  assert (length sequencia = (length pontos + 1)%nat) as Hls.
  { rewrite Hseq. simpl. rewrite length_app, Hresto, length_seq. simpl. lia. }
  unfold calcular_estatisticas_rota, estatisticas_euclidianas. simpl tem_features.
  cbv iota.
  pose proof (soma_euclidiana pontos m sequencia Hm Hval 0 0) as Hsoma.
  rewrite drop_0, Hcost in Hsoma. rewrite Hsoma.
  cbn [mbind resultado_bind]. change (0 + total) with total.
  rewrite Hdist. cbn [mbind resultado_bind]. by rewrite Hls.
Qed.

(** X13.  The map of a tour that [otimizar_rota] returned, drawn without a
    real route with one name per point, is always made: it is centred on
    the depot, has one marker more than there are points, and its first
    marker (green) and its last one (red) both stand on the depot. *)
Theorem X13_mapa_do_tour `{!HypotLaws} `{folium.Validacao} `{!ValidacaoLaws}
    (fuel : nat) (pontos : list ponto) (nomes : list string)
    (sequencia : list nat) (distancia : float) :
  otimizar_rota fuel pontos = Some (Ok (sequencia, distancia)) ->
  length nomes = length pontos ->
  exists deposito mapa marcadores linha,
    pontos !! 0%nat = Some deposito /\
    gerar_mapa pontos nomes sequencia None = Ok mapa /\
    folium.location mapa = (deposito.2, deposito.1) /\
    folium.children mapa = marcadores ++ linha :: controles /\
    length marcadores = (length pontos + 1)%nat /\
    (exists popup tooltip,
       marcadores !! 0%nat
       = Some (folium.Marker (deposito.2, deposito.1) popup tooltip
                 {| folium.icon := "play"; folium.color := "green";
                    folium.prefix := "fa" |})) /\
    (exists popup tooltip,
       marcadores !! length pontos
       = Some (folium.Marker (deposito.2, deposito.1) popup tooltip
                 {| folium.icon := "stop"; folium.color := "red";
                    folium.prefix := "fa" |})).
Proof.
  intros Hok Hnomes.
  destruct (otimizar_rota_paradas _ _ _ _ Hok) as [Hlen Hval].
  destruct (otimizar_rota_Ok_inv _ _ _ _ Hok)
    as (m & solution & resto & total & Hm & _ & Hresto & Hseq & _).
  assert (length sequencia = (length pontos + 1)%nat) as Hls.
  { rewrite Hseq. simpl. rewrite length_app, Hresto, length_seq. simpl. lia. }
  assert (sequencia !! 0%nat = Some 0%nat) as Hprimeiro by (by rewrite Hseq).
  assert (sequencia !! length pontos = Some 0%nat) as Hultimo.
  { rewrite Hseq. rewrite lookup_cons_ne_0 by lia.
    rewrite lookup_app_r; rewrite Hresto, length_seq; [|lia].
    by replace (Nat.pred (length pontos) - (length pontos - 1))%nat with 0%nat
      by lia. }
  assert (Forall (fun idx => exists p : ponto,
                    pontos !! idx = Some p /\ finito p = true) sequencia)
    as Hpts.
  { eapply Forall_impl; [exact Hval|]. intros idx Hidx. simpl in Hidx.
    destruct (lookup_lt_is_Some_2 pontos idx Hidx) as [p Hp].
    exists p. split; [done|]. by eapply dist_matrix_finito. }
  assert (sequencia <> []) as Hne by (by rewrite Hseq).
  destruct (lookup_lt_is_Some_2 pontos 0) as [deposito Hdep]; [lia|].
  destruct (centro_e_marcadores_Ok pontos nomes sequencia Hne)
    as [[centro ms] Hcm].
  { apply Forall_forall. intros idx Hidx. rewrite Forall_forall in Hval, Hpts.
    split; [rewrite Hnomes; by apply Hval|by apply Hpts]. }
  destruct (centro_e_marcadores_Ok_inv _ _ _ _ _ Hcm)
    as (i0 & p0 & Hi0 & Hp0 & -> & Hms).
  assert (i0 = 0%nat) as -> by congruence.
  assert (p0 = deposito) as -> by congruence.
  destruct (linha_reta_Ok pontos sequencia Hne Hpts) as [linha Hlinha].
  pose proof (Forall2_length _ _ _ Hms) as Hlms. rewrite length_seq in Hlms.
  exists deposito, (mapa_de (reversed deposito) ms linha), ms, linha.
  split; [done|]. split.
  { rewrite gerar_mapa_forma, Hcm, tem_rota_real_None.
    cbn [mbind resultado_bind]. by rewrite Hlinha. }
  split; [done|]. split; [done|]. split; [lia|].
  split.
  - destruct (Forall2_lookup_l _ _ _ 0%nat 0%nat Hms) as (mk & Hmk & Hmarc);
      [rewrite lookup_seq_lt; [done|lia]|].
    apply marcador_Ok_inv in Hmarc
      as (idx & p & nome & cor & icone & Hidx & Hp & _ & Hcor & -> & _).
    assert (idx = 0%nat) as -> by congruence.
    assert (p = deposito) as -> by congruence.
    injection Hcor as <- <-. by eexists _, _.
  - destruct (Forall2_lookup_l _ _ _ (length pontos) (length pontos) Hms)
      as (mk & Hmk & Hmarc); [rewrite lookup_seq_lt; [done|lia]|].
    apply marcador_Ok_inv in Hmarc
      as (idx & p & nome & cor & icone & Hidx & Hp & _ & Hcor & -> & _).
    assert (idx = 0%nat) as -> by congruence.
    assert (p = deposito) as -> by congruence.
    destruct (cor_e_icone_casos (length pontos) (length sequencia))
      as [[? _]|[(_ & _ & Hc)|(_ & ? & _)]]; [lia| |lia].
    rewrite Hcor in Hc. injection Hc as -> ->. by eexists _, _.
Qed.

End Composicao.

Lemma X8_otimizar_rota_desfechos_witness :
  (exists e, @otimizar_rota hypot_ref solver_na_ordem 3 dois_pontos
               = Some (Raise e) /\
             @dist_matrix hypot_ref dois_pontos = Raise e /\
             erro_de_conversao e) \/
  (exists m, @otimizar_rota hypot_ref solver_na_ordem 3 dois_pontos
               = Some (Raise (RuntimeError msg_sem_solucao)) /\
             @dist_matrix hypot_ref dois_pontos = Ok m /\
             retorno (@busca_de solver_na_ordem m) = None) \/
  (exists sequencia distancia,
     @otimizar_rota hypot_ref solver_na_ordem 3 dois_pontos
     = Some (Ok (sequencia, distancia))).
Proof.
  apply (@X8_otimizar_rota_desfechos hypot_ref solver_na_ordem
           solver_na_ordem_contract 3 dois_pontos); simpl; lia.
Defined.

Lemma X9_otimizar_rota_dois_pontos_witness :
  [0; 1; 0]%nat = [0; 1; 0]%nat /\
  exists ida volta,
    @distancia_euclidiana hypot_ref (0, 0)%float (1, 0)%float = Ok ida /\
    @distancia_euclidiana hypot_ref (1, 0)%float (0, 0)%float = Ok volta /\
    ida + volta < int64_max /\
    int_truediv (ida + volta) 1000 = Ok 2%float.
Proof.
  destruct (@X9_otimizar_rota_dois_pontos hypot_ref solver_na_ordem
              solver_na_ordem_contract hypot_ref_nao_negativo 3
              (0, 0)%float (1, 0)%float [0; 1; 0]%nat 2%float)
    as (Hseq & ida & volta & Hida & Hvolta & Hdist); [by vm_compute|].
  split; [done|].
  vm_compute in Hida. injection Hida as <-.
  vm_compute in Hvolta. injection Hvolta as <-.
  exists 1000, 1000.
  split; [by vm_compute|]. split; [by vm_compute|]. split; [done|].
  by apply Hdist.
Defined.

Lemma X10_otimizar_rota_pontos_coincidentes_witness : 0%float = 0%float.
Proof.
  apply (@X10_otimizar_rota_pontos_coincidentes hypot_ref solver_na_ordem
           solver_na_ordem_contract hypot_ref_laws 4
           [(1, 2); (1, 2); (1, 2)]%float (1, 2)%float [0; 1; 2; 0]%nat).
  - repeat constructor.
  - by vm_compute.
  - by vm_compute.
  - by vm_compute.
Defined.

Lemma X11_pontos_otimizados_witness :
  (exists deposito outros,
     pontos_otimizados dois_pontos [0; 1; 0]%nat
     = Ok (deposito :: outros ++ [deposito]) /\
     dois_pontos !! 0%nat = Some deposito /\ deposito :: outros ≡ₚ dois_pontos) /\
  (exists nome outros,
     sequencia_nomes ["A"; "B"] [0; 1; 0]%nat = Ok (nome :: outros ++ [nome]) /\
     ["A"; "B"] !! 0%nat = Some nome /\ nome :: outros ≡ₚ ["A"; "B"]).
Proof.
  apply (@X11_pontos_otimizados hypot_ref solver_na_ordem
           solver_na_ordem_contract 3 dois_pontos ["A"; "B"] [0; 1; 0]%nat
           2%float).
  - by vm_compute.
  - reflexivity.
Defined.

Lemma X12_estatisticas_do_tour_witness :
  exists m total,
    @dist_matrix hypot_ref dois_pontos = Ok m /\
    custo_percurso m [0; 1; 0]%nat = Ok total /\
    total < int64_max /\
    @calcular_estatisticas_rota hypot_ref dois_pontos [0; 1; 0]%nat None
    = Ok {| num_pontos := 2;
            num_paradas := 3;
            distancia_km := 2;
            tempo_horas := (2 / 60)%float;
            tempo_minutos := (2 / 60 * 60)%float |}.
Proof.
  destruct (@X12_estatisticas_do_tour hypot_ref solver_na_ordem
              solver_na_ordem_contract hypot_ref_nao_negativo 3 dois_pontos
              [0; 1; 0]%nat 2%float)
    as (m & total & Hm & Hcost & Hstats); [by vm_compute|].
  vm_compute in Hm. injection Hm as <-.
  vm_compute in Hcost. injection Hcost as <-.
  exists [[0; 1000]; [1000; 0]], 2000.
  split; [by vm_compute|]. split; [by vm_compute|]. split; [done|].
  by apply Hstats.
Defined.

Lemma X13_mapa_do_tour_witness :
  exists deposito mapa marcadores linha,
    dois_pontos !! 0%nat = Some deposito /\
    @gerar_mapa folium_ref dois_pontos ["A"; "B"] [0; 1; 0]%nat None = Ok mapa /\
    folium.location mapa = (deposito.2, deposito.1) /\
    folium.children mapa = marcadores ++ linha :: controles /\
    length marcadores = 3%nat /\
    (exists popup tooltip,
       marcadores !! 0%nat
       = Some (folium.Marker (deposito.2, deposito.1) popup tooltip
                 {| folium.icon := "play"; folium.color := "green";
                    folium.prefix := "fa" |})) /\
    (exists popup tooltip,
       marcadores !! 2%nat
       = Some (folium.Marker (deposito.2, deposito.1) popup tooltip
                 {| folium.icon := "stop"; folium.color := "red";
                    folium.prefix := "fa" |})).
Proof.
  apply (@X13_mapa_do_tour hypot_ref solver_na_ordem solver_na_ordem_contract
           hypot_ref_laws folium_ref folium_ref_laws
           3 dois_pontos ["A"; "B"] [0; 1; 0]%nat 2%float).
  - by vm_compute.
  - reflexivity.
Defined.

(** ** More on [calcular_estatisticas_rota] *)

Lemma tem_features_Some (d : dict) (v : valor) :
  d !! "features" = Some v -> tem_features (Some d) = true.
Proof.
  intros Hd. unfold tem_features.
  assert (size d ≠ 0%nat) as Hsize.
  { intros ->%map_size_empty_iff. by rewrite lookup_empty in Hd. }
  apply Nat.eqb_neq in Hsize as ->.
  by rewrite bool_decide_eq_true_2 by (by rewrite Hd).
Qed.

(** X14.  When the first feature of the route has no 'properties', or its
    properties have no 'summary', [calcular_estatisticas_rota] reports a
    distance and a time of 0: the defaults of [get], not the Euclidean
    estimate. *)
Theorem X14_estatisticas_sem_summary `{MathHypot} (pontos : list ponto)
    (sequencia : list nat) (d f : dict) (resto : list valor) :
  d !! "features" = Some (VList (VDict f :: resto)) ->
  f !! "properties" = None \/
  (exists properties : dict,
     f !! "properties" = Some (VDict properties) /\
     properties !! "summary" = None) ->
  calcular_estatisticas_rota pontos sequencia (Some d)
  = Ok {| num_pontos := length pontos;
          num_paradas := length sequencia;
          distancia_km := 0;
          tempo_horas := 0;
          tempo_minutos := 0 |}.
Proof.
  intros Hd Hf. unfold calcular_estatisticas_rota.
  rewrite (tem_features_Some d _ Hd). simpl. rewrite Hd. simpl.
  destruct Hf as [->|(properties & -> & Hs)]; simpl; [|rewrite Hs; simpl].
  all: rewrite lookup_empty; simpl; by vm_compute.
Qed.

Lemma X14_estatisticas_sem_summary_witness :
  @calcular_estatisticas_rota hypot_ref dois_pontos [0; 1; 0]%nat
    (Some {[ "features" := VList [VDict ∅] ]})
  = Ok {| num_pontos := 2;
          num_paradas := 3;
          distancia_km := 0;
          tempo_horas := 0;
          tempo_minutos := 0 |}.
Proof.
  apply (@X14_estatisticas_sem_summary hypot_ref dois_pontos [0; 1; 0]%nat
           {[ "features" := VList [VDict ∅] ]} ∅ []).
  - reflexivity.
  - left. reflexivity.
Defined.

(** X15.  With no real route and a sequence of at most one stop,
    [calcular_estatisticas_rota] reports a distance and a time of 0 without
    looking at the stop: an index that is no index of the points raises
    nothing. *)
Theorem X15_estatisticas_sequencia_curta `{MathHypot} (pontos : list ponto)
    (sequencia : list nat) :
  (length sequencia <= 1)%nat ->
  calcular_estatisticas_rota pontos sequencia None
  = Ok {| num_pontos := length pontos;
          num_paradas := length sequencia;
          distancia_km := 0;
          tempo_horas := 0;
          tempo_minutos := 0 |}.
Proof.
  intros Hlen. unfold calcular_estatisticas_rota, estatisticas_euclidianas.
  simpl tem_features. cbv iota.
  replace (length sequencia - 1)%nat with 0%nat by lia. simpl.
  by vm_compute.
Qed.

Lemma X15_estatisticas_sequencia_curta_witness :
  @calcular_estatisticas_rota hypot_ref dois_pontos [7%nat] None
  = Ok {| num_pontos := 2;
          num_paradas := 1;
          distancia_km := 0;
          tempo_horas := 0;
          tempo_minutos := 0 |}.
Proof.
  apply (@X15_estatisticas_sequencia_curta hypot_ref dois_pontos [7%nat]).
  simpl. lia.
Defined.

Lemma para_cada_Raise {A} (corpo : nat -> A -> resultado A) (n : nat) (e : excecao) :
  forall (k : nat) (acc : A),
    para_cada corpo k n acc = Raise e ->
    exists i acc', corpo i acc' = Raise e.
Proof.
  induction n as [|n IH]; intros k acc; simpl; [done|].
  intros [Hc|(acc' & _ & Hr)]%bind_Raise_inv; [eauto|by eapply IH].
Qed.

(** X16.  With no real route, [calcular_estatisticas_rota] raises nothing but
    [IndexError], for a stop that is no index of the points, the errors of
    [int()], for a coordinate that is not finite or a distance that
    overflows, and the [OverflowError] of the division by 1000, for a total
    too large for a float. *)
Theorem X16_estatisticas_euclidianas_erros `{MathHypot} (pontos : list ponto)
    (sequencia : list nat) (e : excecao) :
  calcular_estatisticas_rota pontos sequencia None = Raise e ->
  e = IndexError "list index out of range" \/ erro_de_conversao e \/
  e = OverflowError msg_div_grande.
Proof.
  unfold calcular_estatisticas_rota, estatisticas_euclidianas.
  simpl tem_features. cbv iota.
  intros [Hsoma|(total & _ & Hdiv)]%bind_Raise_inv; cycle 1.
  { apply bind_Raise_inv in Hdiv as [Hdiv|(km & _ & [=])].
    right. right. by apply int_truediv_Raise in Hdiv. }
  apply para_cada_Raise in Hsoma as (i & acc & Hcorpo).
  unfold getitem in Hcorpo.
  destruct (sequencia !! i) as [idx_atual|]; simpl in Hcorpo;
    [|injection Hcorpo as <-; by left].
  destruct (sequencia !! (i + 1)%nat) as [idx_proximo|]; simpl in Hcorpo;
    [|injection Hcorpo as <-; by left].
  destruct (pontos !! idx_atual) as [a|]; simpl in Hcorpo;
    [|injection Hcorpo as <-; by left].
  destruct (pontos !! idx_proximo) as [b|]; simpl in Hcorpo;
    [|injection Hcorpo as <-; by left].
  apply bind_Raise_inv in Hcorpo as [Hd|(d & _ & [=])].
  right. left. by apply int_Raise in Hd as [_ ?].
Qed.

Lemma X16_estatisticas_euclidianas_erros_witness :
  IndexError "list index out of range" = IndexError "list index out of range"
  \/ erro_de_conversao (IndexError "list index out of range")
  \/ IndexError "list index out of range" = OverflowError msg_div_grande.
Proof.
  apply (@X16_estatisticas_euclidianas_erros hypot_ref dois_pontos
           [0; 5; 0]%nat).
  by vm_compute.
Defined.

(** ** More on [obter_rota_real] *)

(** X17.  [obter_rota_real] hands the answer of the service over untouched
    and prints nothing when the request succeeds, returns [None] only
    together with one printed line, never prints more than one line, and
    lets no error through that is an [Exception]. *)
Theorem X17_obter_rota_real_desfechos `{OpenRouteService} (api_key : string)
    (pontos : list ponto) (profile : string) :
  (forall caminhos,
     (cliente ← Client api_key;
      directions cliente pontos profile "geojson" true false) = Ok caminhos ->
     obter_rota_real api_key pontos profile = ([], Ok (Some caminhos))) /\
  ((obter_rota_real api_key pontos profile).2 = Ok None <->
   length (obter_rota_real api_key pontos profile).1 = 1%nat) /\
  (length (obter_rota_real api_key pontos profile).1 <= 1)%nat /\
  (forall e,
     (obter_rota_real api_key pontos profile).2 = Raise e ->
     is_Exception e = false /\
     (cliente ← Client api_key;
      directions cliente pontos profile "geojson" true false) = Raise e).
Proof.
  unfold obter_rota_real.
  destruct (cliente ← Client api_key; directions cliente pontos profile _ _ _)
    as [caminhos|e].
  - repeat split; intros; simpl in *; try done; try lia. congruence.
  - destruct (is_ApiError e) eqn:Hapi; [|destruct (is_Exception e) eqn:Hexc];
      repeat split; intros; simpl in *; try done; try lia; congruence.
Qed.

(** ** More on the distance model *)

(** X18.  No cost is negative: every entry of a matrix that [otimizar_rota]
    builds is at least 0. *)
Theorem X18_custos_nao_negativos `{MathHypot} `{!HypotNaoNegativo}
    (pontos : list ponto) (m : list (list Z)) (i j : nat) (c : Z) :
  dist_matrix pontos = Ok m ->
  entrada m i j = Some c ->
  0 <= c.
Proof. intros Hm Hc. by eapply dist_matrix_nao_negativa. Qed.

Lemma X18_custos_nao_negativos_witness : 0 <= 1000.
Proof.
  apply (@X18_custos_nao_negativos hypot_ref hypot_ref_nao_negativo dois_pontos
           matriz_dois_pontos 0 1 1000); by vm_compute.
Defined.

(** X19.  The matrix is built exactly when the distance of every ordered
    pair of points converts to an int, and it is then square, one row and
    one column per point. *)
Theorem X19_dist_matrix_quadrada `{MathHypot} (pontos : list ponto) :
  ((exists m, dist_matrix pontos = Ok m) <->
   (forall a b, a ∈ pontos -> b ∈ pontos ->
      exists c, distancia_euclidiana a b = Ok c)) /\
  (forall m, dist_matrix pontos = Ok m ->
     length m = length pontos /\
     forall linha, linha ∈ m -> length linha = length pontos).
Proof.
  split; [split|].
  - intros [m Hm] a b [i Ha]%list_elem_of_lookup [j Hb]%list_elem_of_lookup.
    destruct (dist_matrix_entrada pontos m i j a b Hm Ha Hb) as (c & _ & Hc).
    by exists c.
  - intros Hpares. unfold dist_matrix.
    apply mapM_all_Ok. intros i [_ Hi]%elem_of_seq.
    apply mapM_all_Ok. intros j [_ Hj]%elem_of_seq.
    destruct (lookup_lt_is_Some_2 pontos i) as [a Ha]; [lia|].
    destruct (lookup_lt_is_Some_2 pontos j) as [b Hb]; [lia|].
    rewrite (proj2 (getitem_Ok _ _ _) Ha). simpl.
    rewrite (proj2 (getitem_Ok _ _ _) Hb). simpl.
    apply Hpares; by eapply list_elem_of_lookup_2.
  - intros m Hm. destruct (dist_matrix_linhas pontos m Hm) as [Hlm Hrows].
    split; [done|]. by apply Forall_forall.
Qed.
